(* ===== verification/_CoqProject ===== *)
-Q . S2P
Prelude.v
Json.v
Retry.v
Pagination.v
RequestClient.v
ResourceSync.v
Submissions.v
Harmonizer.v
HarmonizerTests.v
