(* ===== verification/Prelude.v ===== *)
(** * LMS-Toolkit: the sync-and-reconciliation engine, verified

    ** The program

    The LMS-Toolkit extracts assignments, submissions, sections and users
    from learning-management systems and synchronises them into a
    relational store; a harmonizer then links LMS rows to Ed-Fi (SIS) rows
    and projects the fully linked, undeleted rows into the [lmsx] tables.
    The staged sources are
    - [src/src/google/google-extractor/api/api_caller.py]: [execute], a
      request under opnieuw's [@retry] (4 calls within 60 s), and
      [call_api], the paginated fetch that follows [nextPageToken];
    - [src/src/canvas-extractor/edfi_canvas_extractor/api/submissions.py]:
      [request_submissions] under retry, and [submissions_synced_as_df],
      which synchronises a DataFrame with the store
      ([sync_to_db_without_cleanup], identity column ["id"]) and cleans the
      staging tables up;
    - [src/src/schoology-extractor/schoology_extractor/api/request_client.py]:
      the OAuth1 Schoology client ([_request_header], [_get],
      [get_assignments_by_section_ids], [get_section_by_id],
      [get_submissions_by_section_id], [get_users]);
    - the harmonizer's integration tests under
      [src/src/lms-harmonizer/tests_integration_sql/procs/mssql/].

    The extractors call two parts of the repository that are not staged:
    the resource-sync library ([edfi_lms_extractor_lib.api.resource_sync])
    and the harmonizer's stored procedures.  Both are modelled from the
    spec (§4.2, §4.3) and marked so in the manifest; opnieuw's decorator is
    modelled from its documented contract.

    ** The library

    - [Prelude] (this file): the [result] type of Python outcomes
      ([Ok] or [Err] with the exception raised), its [let!] notation in
      [lms_scope], the hint databases [lms] and [lms_rw], the tactics
      [res_inv], [decide_holds] and [destruct_binds].
    - [Json]: Python values decoded from JSON and the Python operations the
      code applies to them ([dict.get], item assignment, truthiness, [in],
      [d[k]], [list + list], [list.extend], [str()]), each with the
      exception Python raises; [EqDecision] and [Countable] instances (via
      [gen_tree]) so that identity values can key stdpp maps.
    - [Retry]: the decorator as [retry_loop] over an oracle of attempts
      (start time after the first call, outcome); [execute] is the
      decorator at [execute_policy].
    - [Pagination]: [call_api_loop], with the caller's
      [resource_parameters] dict and [results] list threaded as
      [fetch_state] because the Python code mutates them in place; the
      abstract chain of pages [pages] that the server serves.
    - [RequestClient]: the Schoology client as a computation over the log
      of requests sent ([client_m]); the server, the random generator
      (whose outputs [random.randint(0, 9)] reduces to a digit) and the
      clock are parameters of a Section.
    - [ResourceSync]: the interface [ResourceSync] (a class with the two
      operations the extractors call) with its laws [ResourceSyncLaws], the
      implementation [sync_impl]/[cleanup_impl] over a store of
      [gmap]-tables of snapshots, in which a batch is keyed by its identity
      columns and each key is compared with the prior table (spec §4.2,
      §5), lemmas on that per-key structure that hold whatever one upsert
      ([sync_row]) does, and the reachable stores [sync_run].
    - [Submissions]: the Canvas client, written against the interface; its
      theorems are stated at the implementation, each proving the fact
      about [sync_row] it needs; the file ends with the proof that the
      implementation satisfies the interface's laws.
    - [Harmonizer]: the store of LMS, Ed-Fi and [lmsx] tables, the link
      passes, the generic reconciliation of a derived table
      ([reconcile_derived], shown equal to [map_imap] of the projection
      whatever the table held), and [run_harmonizer]; the declarative
      [harmonized_assignments]/[harmonized_submissions] it refines.
    - [HarmonizerTests]: the loaders of the integration tests, every
      [describe_*] block as a store and its assertions as examples
      evaluated on the model (a check of the model against the tests), and
      the tests' SQL updates with theorems for every store.

    ** What is proved

    - Sync (through [submissions_synced_as_df], at the implementation):
      idempotence of a second run on the same batch; the three-way
      classification new / changed / unchanged; [CreateDate] immutability;
      [CreateDate <= LastModifiedDate <= now] on every store reachable by
      syncs at non-decreasing times (rule induction on [sync_run]); rows
      absent from a batch kept; no staging table left; other resources
      untouched.
    - Pagination: completeness and termination (fuel = number of pages),
      soundness against [pages], propagation of a failed page with the
      caller-visible state it leaves, that an empty [nextPageToken]
      ends the loop, that a missing item field is an empty page, and that
      a non-dict response raises [AttributeError] before any
      caller-visible change.
    - Retry: at most four calls; the exception raised is the last call's;
      success after [n < 4] failures inside the window; a failure whose
      next call would start after the 60-second window is final.
    - Harmonizer: for every store, soft-deleting all assignments empties
      both derived tables, and the tests' title and grade updates reach
      every derived row without changing which rows exist.  The library
      also proves refinement of the
      declarative specification, idempotence of a run, both soft-delete
      cascades, foreign-key integrity (after a run and after the
      assignment pass alone), and the user-linking rules.
    - Schoology client: the assignment loop requests every section in
      order and concatenates the [assignment] lists; a failed section
      request aborts the loop with no later section requested (both from
      one prefix lemma, [assignments_loop_app]); every request sent is
      signed and under the base URL, at most one per section; whatever the
      generator returns, the nonce is eight digits; [get_users] returns
      the [user] field or [[]].

    ** Bounds and fuel

    [call_api_loop] takes fuel, one unit per page: the Python loop has no
    bound and would run forever on a server that always answers with a
    token; [OutOfFuel] is the model's report of that, and
    [call_api_complete] shows that fuel equal to the number of pages always
    suffices.  The retry loop is structural in its call budget.  Times are
    integers (seconds), identities naturals; the store's clock is a
    parameter of every sync.

    ** Not modelled

    Network transport, OAuth signing inside [requests_oauthlib], pandas
    conversions beyond a row per API object, the SQL schema and
    migrations, logging and the CLI entry points: they are the external
    collaborators of spec §1.  Store failures (connectivity, constraints)
    are not modelled: every store operation succeeds. *)

From stdpp Require Export base gmap strings list countable.
From Stdlib Require Export ZArith.

(** ** Python exceptions

    The modelled Python code signals failure by raising.  Every fallible
    operation of the development returns a [result]: either [Ok] with the
    value the Python code returns, or [Err] with the exception it raises. *)

Inductive exn :=
  | AssertionError
  | TypeError (msg : string)
  | AttributeError (msg : string)
  | KeyError (key : string)
  | ApiError (msg : string)
  | OutOfFuel.

Inductive result (A : Type) :=
  | Ok (a : A)
  | Err (e : exn).
Arguments Ok {A} a.
Arguments Err {A} e.

Definition res_bind {A B} (m : result A) (k : A -> result B) : result B :=
  match m with
  | Ok a => k a
  | Err e => Err e
  end.

Definition res_map {A B} (f : A -> B) (m : result A) : result B :=
  res_bind m (fun a => Ok (f a)).

Definition is_ok {A} (m : result A) : bool :=
  match m with Ok _ => true | Err _ => false end.

Declare Scope lms_scope.
Delimit Scope lms_scope with lms.
Notation "'let!' x ':=' m 'in' k" := (res_bind m (fun x => k))
  (at level 10, x name, m at level 100, k at level 200) : lms_scope.
Notation "'let!' ' p ':=' m 'in' k" := (res_bind m (fun p => k))
  (at level 10, p pattern, m at level 100, k at level 200) : lms_scope.
Open Scope lms_scope.

(** ** Generic lemmas on [result] *)

Lemma res_bind_Ok {A B} (a : A) (k : A -> result B) :
  res_bind (Ok a) k = k a.
Proof. reflexivity. Qed.

Lemma res_bind_Err {A B} (e : exn) (k : A -> result B) :
  res_bind (Err e) k = Err e.
Proof. reflexivity. Qed.

Lemma res_bind_assoc {A B C} (m : result A) (k : A -> result B) (h : B -> result C) :
  res_bind (res_bind m k) h = res_bind m (fun a => res_bind (k a) h).
Proof. by destruct m. Qed.

Lemma res_bind_Ok_inv {A B} (m : result A) (k : A -> result B) (b : B) :
  res_bind m k = Ok b -> exists a, m = Ok a /\ k a = Ok b.
Proof. destruct m; simpl; [eauto | discriminate]. Qed.

Lemma res_bind_Err_inv {A B} (m : result A) (k : A -> result B) (e : exn) :
  res_bind m k = Err e -> m = Err e \/ exists a, m = Ok a /\ k a = Err e.
Proof. destruct m as [a|e0]; simpl; intros H; [right; exists a; split | left; congruence]; auto. Qed.

Create HintDb lms.
Create Rewrite HintDb lms_rw.
#[export] Hint Rewrite @res_bind_Ok @res_bind_Err @res_bind_assoc : lms_rw.

(** [res_inv] splits a hypothesis [res_bind m k = Ok b] into its two
    halves, and closes goals where an [Ok] meets an [Err]. *)
Ltac res_inv :=
  repeat match goal with
  | H : res_bind _ _ = Ok _ |- _ =>
      let a := fresh "a" in
      let Hm := fresh "Hm" in
      apply res_bind_Ok_inv in H as (a & Hm & H)
  | H : Ok _ = Ok _ |- _ => injection H as H; subst
  | H : Ok _ = Err _ |- _ => discriminate H
  | H : Err _ = Ok _ |- _ => discriminate H
  end.

(** ** Generic lemmas on lists shared by the components *)

Lemma concat_app_assoc {A} (acc : list A) (ls : list (list A)) (l : list A) :
  acc ++ concat (l :: ls) = (acc ++ l) ++ concat ls.
Proof. simpl. by rewrite app_assoc. Qed.
#[export] Hint Rewrite @concat_app_assoc : lms_rw.

(** A fixed time stamp: the store's clock and the API's elapsed times are
    integers (seconds). *)
Abbreviation time := Z (only parsing).

(** [decide_holds] proves a decidable proposition about closed data by
    evaluating its decision procedure. *)
Ltac decide_holds :=
  match goal with |- ?P => apply (bool_decide_unpack P); vm_compute; reflexivity end.

(** [destruct_binds] case-splits on the scrutinee of every option bind of
    the goal, innermost lookups first, as the SQL joins of the harmonizer
    do. *)
Ltac destruct_binds :=
  repeat match goal with
  | |- context [mbind _ ?m] =>
      lazymatch m with
      | Some _ => simpl
      | None => simpl
      | _ => let E := fresh "E" in destruct m eqn:E; simpl
      end
  end.
