(* ===== verification/Json.v ===== *)
(** * Python values decoded from JSON

    The API clients handle the parsed JSON bodies of HTTP responses
    ([response.json()] in [request_client.py], the dictionaries returned by
    the Google SDK's [execute()] in [api_caller.py]).  [json] is that Python
    value: [None], booleans, integers, strings, lists and dicts with string
    keys (a dict is an association list in insertion order, which is how a
    Python dict iterates).  This file gives the Python operations the code
    applies to them: [dict.get], item assignment, truthiness ([if not x]),
    [in], [d[k]], [list + list], [list.extend] and [str()] for f-strings,
    each with the exception Python raises where it raises one. *)

From S2P Require Import Prelude.
From stdpp Require Import pretty.

(** Registering the [All] schemes of [list] and [prod] gives [json_ind] a
    hypothesis for every element of a nested list or dict. *)
Scheme All for list.
Scheme All for prod.

Inductive json :=
  | JNone
  | JBool (b : bool)
  | JInt (z : Z)
  | JStr (s : string)
  | JList (l : list json)
  | JDict (kvs : list (string * json)).

(** ** Dict operations *)

(** [d.get(k, default)]: the value of the first entry with key [k]. *)
Fixpoint assoc_get (k : string) (kvs : list (string * json)) : option json :=
  match kvs with
  | [] => None
  | (k', v) :: rest => if String.eqb k k' then Some v else assoc_get k rest
  end.

(** [d[k] = v]: an existing key keeps its position, a new one is appended. *)
Fixpoint assoc_set (k : string) (v : json) (kvs : list (string * json)) :
    list (string * json) :=
  match kvs with
  | [] => [(k, v)]
  | (k', v') :: rest =>
      if String.eqb k k' then (k', v) :: rest else (k', v') :: assoc_set k v rest
  end.

(** [response.get(k, default)] on a value that is a dict. A value that is
    not a dict has no [get] method: Python raises [AttributeError], which
    the code does not catch. *)
Definition py_get (d : json) (k : string) (default : json) : result json :=
  match d with
  | JDict kvs => Ok (stdpp.option.default default (assoc_get k kvs))
  | _ => Err (AttributeError "get")
  end.

(** Python truthiness, as in [if not next_page_token]. *)
Definition py_truthy (v : json) : bool :=
  match v with
  | JNone => false
  | JBool b => b
  | JInt z => negb (Z.eqb z 0)
  | JStr s => negb (String.eqb s "")
  | JList l => negb (Nat.eqb (length l) 0)
  | JDict kvs => negb (Nat.eqb (length kvs) 0)
  end.

(** [k in v]: key membership for a dict, element membership for a list,
    substring test for a string; any other value is not iterable. *)
Fixpoint substring_of (needle hay : string) : bool :=
  String.prefix needle hay ||
  match hay with
  | EmptyString => false
  | String _ rest => substring_of needle rest
  end.

Definition py_in_str (k : string) (v : json) : result bool :=
  match v with
  | JDict kvs => Ok (bool_decide (is_Some (assoc_get k kvs)))
  | JList l => Ok (existsb (fun x => match x with JStr s => String.eqb s k | _ => false end) l)
  | JStr s => Ok (substring_of k s)
  | _ => Err (TypeError "argument of type is not iterable")
  end.

(** [v[k]] with a string key. *)
Definition py_getitem_str (v : json) (k : string) : result json :=
  match v with
  | JDict kvs =>
      match assoc_get k kvs with
      | Some x => Ok x
      | None => Err (KeyError k)
      end
  | _ => Err (TypeError "indices must be integers")
  end.

(** [l + v] for a list [l]: only a list can be concatenated to a list. *)
Definition py_list_add (l : list json) (v : json) : result (list json) :=
  match v with
  | JList l' => Ok (l ++ l')
  | _ => Err (TypeError "can only concatenate list to list")
  end.

(** The elements [list.extend(v)] appends: a list's elements, a dict's keys,
    a string's characters; any other value is not iterable. *)
Fixpoint string_chars (s : string) : list json :=
  match s with
  | EmptyString => []
  | String c rest => JStr (String c EmptyString) :: string_chars rest
  end.

Definition py_iter (v : json) : result (list json) :=
  match v with
  | JList l => Ok l
  | JDict kvs => Ok (map (fun kv => JStr kv.1) kvs)
  | JStr s => Ok (string_chars s)
  | _ => Err (TypeError "object is not iterable")
  end.

(** ** [str()] and [repr()]

    [py_str] is what an f-string inserts for a value; [py_repr] is the
    representation Python prints for a value nested in a list or dict.
    Quotes inside strings are not escaped by [py_repr]. *)

Fixpoint py_repr (j : json) : string :=
  match j with
  | JNone => "None"
  | JBool true => "True"
  | JBool false => "False"
  | JInt z => pretty z
  | JStr s => "'" +:+ s +:+ "'"
  | JList l => "[" +:+ String.concat ", " (map py_repr l) +:+ "]"
  | JDict kvs =>
      "{" +:+ String.concat ", " (map (fun kv => "'" +:+ kv.1 +:+ "': " +:+ py_repr kv.2) kvs) +:+ "}"
  end.

Definition py_str (j : json) : string :=
  match j with
  | JStr s => s
  | _ => py_repr j
  end.

(** ** Decidable equality and countability

    Identity values of synchronised rows are [json] values used as keys of
    stdpp maps, which needs [EqDecision] and [Countable].  Both come from an
    injection into stdpp's [gen_tree]. *)

Fixpoint json_to_tree (j : json) : gen_tree ((bool + Z) + string) :=
  match j with
  | JNone => GenNode 0 []
  | JBool b => GenLeaf (inl (inl b))
  | JInt z => GenLeaf (inl (inr z))
  | JStr s => GenLeaf (inr s)
  | JList l => GenNode 1 (map json_to_tree l)
  | JDict kvs => GenNode 2 (map (fun kv => GenNode 0 [GenLeaf (inr kv.1); json_to_tree kv.2]) kvs)
  end.

Fixpoint json_of_tree (t : gen_tree ((bool + Z) + string)) : json :=
  match t with
  | GenLeaf (inl (inl b)) => JBool b
  | GenLeaf (inl (inr z)) => JInt z
  | GenLeaf (inr s) => JStr s
  | GenNode 1 ts => JList (map json_of_tree ts)
  | GenNode 2 ts =>
      JDict (map (fun t => match t with
                           | GenNode 0 [GenLeaf (inr k); v] => (k, json_of_tree v)
                           | _ => ("", JNone)
                           end) ts)
  | _ => JNone
  end.

Lemma json_of_to_tree (j : json) : json_of_tree (json_to_tree j) = j.
Proof.
  induction j as [| | | | l Hl | kvs Hkvs]; simpl; try reflexivity.
  - f_equal. rewrite map_map. induction Hl; simpl; congruence.
  - f_equal. rewrite map_map.
    induction Hkvs as [|kv Hkv kvs _ IH]; [reflexivity |].
    destruct Hkv as [k _ v Hv]; simpl; congruence.
Qed.

#[export] Instance json_eq_dec : EqDecision json.
Proof.
  intros j1 j2.
  destruct (decide (json_to_tree j1 = json_to_tree j2)) as [E|E].
  - left. by rewrite <- (json_of_to_tree j1), E, json_of_to_tree.
  - right. by intros ->.
Defined.

#[export] Instance json_countable : Countable json :=
  inj_countable' json_to_tree json_of_tree json_of_to_tree.

(** ** Dict lemmas: item assignment followed by lookup *)

Lemma assoc_get_set_eq k v kvs : assoc_get k (assoc_set k v kvs) = Some v.
Proof.
  induction kvs as [|[k' v'] kvs IH]; simpl; [by rewrite String.eqb_refl |].
  destruct (String.eqb k k') eqn:E; simpl; rewrite ?E; [done | exact IH].
Qed.

Lemma assoc_get_set_ne k k' v kvs :
  k <> k' -> assoc_get k' (assoc_set k v kvs) = assoc_get k' kvs.
Proof.
  intros Hne. induction kvs as [|[k0 v0] kvs IH]; simpl.
  - destruct (String.eqb_spec k' k); congruence.
  - destruct (String.eqb_spec k k0) as [->|]; simpl;
      destruct (String.eqb_spec k' k0); congruence.
Qed.

Lemma py_get_dict kvs k d : py_get (JDict kvs) k d = Ok (stdpp.option.default d (assoc_get k kvs)).
Proof. reflexivity. Qed.
#[export] Hint Rewrite assoc_get_set_eq py_get_dict : lms_rw.
