(* ===== verification/Retry.v ===== *)
(** * Bounded retry of a fallible remote call

    [api_caller.py] wraps every page request in opnieuw's [@retry]
    decorator with [max_calls_total=4] and
    [retry_window_after_first_call_in_seconds=60]; [submissions.py] wraps
    [request_submissions] in the same decorator with the extractor's
    [RETRY_CONFIG].  The decorator is a third-party library, so its
    behaviour is modelled from its documented contract (spec §4.1, §7):
    the first call is always made; after a failure whose exception is in
    [retry_on_exceptions], another call is made while fewer than
    [max_calls_total] calls have been made and the next call starts within
    the window after the first one; when no further call is allowed, the
    last exception propagates.

    The remote side is an oracle [f : nat -> time * result A]: [f k] is the
    time, in seconds after the first call, at which the [k]-th call starts
    (the decorator's back-off decides it) and the outcome of that call. *)

From S2P Require Import Prelude.

Record retry_policy := {
  max_calls_total : nat;
  retry_window_after_first_call_in_seconds : Z;
  retry_on_exceptions : exn -> bool
}.

(** A call whose successive attempts are described by an oracle. *)
Definition attempts (A : Type) := nat -> time * result A.

Section Retry.
Context {A : Type} (p : retry_policy) (f : attempts A).

(** [retry_loop k left]: call number [k] is made now; [left] more calls
    are allowed by [max_calls_total].  The result is the outcome and the
    number of calls made in all. *)
Fixpoint retry_loop (k left : nat) : result A * nat :=
  match (f k).2 with
  | Ok a => (Ok a, S k)
  | Err e =>
      if retry_on_exceptions p e then
        match left with
        | 0 => (Err e, S k)
        | S left' =>
            if Z.leb (f (S k)).1 (retry_window_after_first_call_in_seconds p)
            then retry_loop (S k) left'
            else (Err e, S k)
        end
      else (Err e, S k)
  end.

Definition retry_calls : result A * nat :=
  retry_loop 0 (max_calls_total p - 1).

(** The outcome the decorated function returns to its caller. *)
Definition retry : result A := retry_calls.1.

(** A call [j] failed with an exception the policy retries, and the call
    after it starts inside the window. *)
Definition retried_failure (j : nat) : Prop :=
  (exists e, (f j).2 = Err e /\ retry_on_exceptions p e = true) /\
  ((f (S j)).1 <= retry_window_after_first_call_in_seconds p)%Z.

Lemma retry_loop_calls k left :
  k < (retry_loop k left).2 <= S (k + left).
Proof.
  revert k. induction left as [|left IH]; intros k; simpl;
    destruct (f k) as [t [a|e]]; simpl; try lia;
    repeat case_match; simpl; try lia.
  specialize (IH (S k)). lia.
Qed.

Lemma retry_loop_sound k budget a :
  (retry_loop k budget).1 = Ok a ->
  exists j, k <= j < (retry_loop k budget).2 /\ (f j).2 = Ok a.
Proof.
  revert k. induction budget as [|budget IH]; intros k; simpl;
    destruct (f k) as [t [a'|e]] eqn:Hk; simpl; intros H;
    repeat case_match; simplify_eq/=; try (exists k; rewrite Hk; split; [lia | done]).
  destruct (IH (S k) H) as (j & ? & ?). exists j. split; [lia | done].
Qed.

Lemma retry_loop_last_error k left e :
  (retry_loop k left).1 = Err e -> (f (pred (retry_loop k left).2)).2 = Err e.
Proof.
  revert k. induction left as [|left IH]; intros k; simpl;
    destruct (f k) as [t [a'|e']] eqn:Hk; simpl; intros H;
    repeat case_match; simplify_eq/=; rewrite ?Hk; auto.
Qed.

(** A run of retried failures inside the window is skipped over: the
    loop continues at the first call after it with the budget it has left. *)
Lemma retry_loop_skip k left n :
  (forall j, k <= j < k + n -> retried_failure j) ->
  n <= left ->
  retry_loop k left = retry_loop (k + n) (left - n).
Proof.
  revert k left. induction n as [|n IH]; intros k left Hfail Hn.
  - by rewrite Nat.add_0_r, Nat.sub_0_r.
  - destruct left as [|left]; [lia |].
    destruct (Hfail k ltac:(lia)) as [(e & He & Hr) Hw]. simpl.
    rewrite He, Hr. apply Z.leb_le in Hw. rewrite Hw.
    replace (k + S n) with (S k + n) by lia.
    apply IH; [intros j ?; apply Hfail; lia | lia].
Qed.

Lemma retry_loop_first_success k left n a :
  (forall j, k <= j < k + n -> retried_failure j) ->
  n <= left ->
  (f (k + n)).2 = Ok a ->
  retry_loop k left = (Ok a, S (k + n)).
Proof.
  intros Hfail Hn Hok. rewrite (retry_loop_skip k left n) by done.
  destruct (left - n); simpl; by rewrite Hok.
Qed.

(** A failure whose next call would start outside the window ends the
    loop, whatever budget is left. *)
Lemma retry_loop_window_closed k left n e :
  (forall j, k <= j < k + n -> retried_failure j) ->
  n <= left ->
  (f (k + n)).2 = Err e ->
  (retry_window_after_first_call_in_seconds p < (f (S (k + n))).1)%Z ->
  retry_loop k left = (Err e, S (k + n)).
Proof.
  intros Hfail Hn He Hlate. rewrite (retry_loop_skip k left n) by done.
  destruct (left - n); simpl; rewrite He; [by case_match |].
  replace (Z.leb _ _) with false by (symmetry; apply Z.leb_gt; lia). by case_match.
Qed.
End Retry.

(** The policy of [execute] in [api_caller.py]: at most four calls, within
    sixty seconds of the first, retrying on every [Exception]. *)
Definition execute_policy : retry_policy := {|
  max_calls_total := 4;
  retry_window_after_first_call_in_seconds := 60;
  retry_on_exceptions := fun _ => true
|}.

(** [execute(executable_resource)]: [executable_resource.execute()] under
    the policy above.  The executable is the oracle of its attempts. *)
Definition execute {A} (executable_resource : attempts A) : result A :=
  retry execute_policy executable_resource.

(** ** Properties of the decorator *)

(** The decorator never makes more than [max_calls_total] calls (one
    call when the policy allows none), whatever the remote side does. *)
Lemma retry_calls_bound {A} (p : retry_policy) (f : attempts A) :
  1 <= (retry_calls p f).2 <= Nat.max 1 (max_calls_total p).
Proof.
  unfold retry_calls. pose proof (retry_loop_calls p f 0 (max_calls_total p - 1)). lia.
Qed.

(** A successful outcome is the outcome of one of the calls made: the
    decorator never invents a response. *)
Lemma retry_sound {A} (p : retry_policy) (f : attempts A) a :
  retry p f = Ok a -> exists j, j < (retry_calls p f).2 /\ (f j).2 = Ok a.
Proof.
  intros H. destruct (retry_loop_sound p f 0 _ a H) as (j & ? & ?).
  exists j. split; [unfold retry_calls; lia | done].
Qed.

(** When retries are exhausted, the exception that propagates is the one
    raised by the last call made. *)
Lemma retry_error_is_last {A} (p : retry_policy) (f : attempts A) e :
  retry p f = Err e -> (f (pred (retry_calls p f).2)).2 = Err e.
Proof. apply retry_loop_last_error. Qed.

(** If the first [n] calls fail with retried exceptions inside the window
    and call [n] succeeds, with [n < max_calls_total], the caller receives
    that success after exactly [n + 1] calls. *)
Lemma retry_first_success {A} (p : retry_policy) (f : attempts A) n a :
  (forall j, j < n -> retried_failure p f j) ->
  n < max_calls_total p ->
  (f n).2 = Ok a ->
  retry_calls p f = (Ok a, S n).
Proof.
  intros Hfail Hn Hok. unfold retry_calls.
  apply (retry_loop_first_success p f 0 _ n a); [intros j ?; apply Hfail; lia | lia | done].
Qed.

(** An exception the policy does not retry propagates after one call. *)
Lemma retry_not_retried {A} (p : retry_policy) (f : attempts A) e :
  (f 0).2 = Err e -> retry_on_exceptions p e = false -> retry_calls p f = (Err e, 1).
Proof.
  intros He Hr. unfold retry_calls.
  destruct (max_calls_total p - 1); simpl; by rewrite He, Hr.
Qed.

(** ** Properties of [execute] *)

(** C13: [execute] calls the request at least once and at most four
    times, whatever the server does. *)
Theorem execute_calls_bound {A} (executable_resource : attempts A) :
  1 <= (retry_calls execute_policy executable_resource).2 <= 4.
Proof. pose proof (retry_calls_bound execute_policy executable_resource). simpl in *. lia. Qed.

(** C14: when [execute] fails, the exception it raises is the one of the
    last call it made: a failure is never replaced by another one. *)
Theorem execute_error_is_last {A} (executable_resource : attempts A) e :
  execute executable_resource = Err e ->
  (executable_resource (pred (retry_calls execute_policy executable_resource).2)).2 = Err e.
Proof. apply retry_error_is_last. Qed.

(** C15: a request that fails [n < 4] times, each retry starting within
    sixty seconds of the first call, and then succeeds, is returned by
    [execute] after exactly [n + 1] calls. *)
Theorem execute_first_success {A} (executable_resource : attempts A) n a :
  n < 4 ->
  (forall j, j < n -> (exists e, (executable_resource j).2 = Err e) /\
                      ((executable_resource (S j)).1 <= 60)%Z) ->
  (executable_resource n).2 = Ok a ->
  execute executable_resource = Ok a /\ (retry_calls execute_policy executable_resource).2 = S n.
Proof.
  intros Hn Hfail Hok.
  assert (E : retry_calls execute_policy executable_resource = (Ok a, S n)).
  { apply retry_first_success; [| simpl; lia | done].
    intros j Hj. destruct (Hfail j Hj) as [[e He] Hw]. split; [by exists e | done]. }
  unfold execute, retry. by rewrite E.
Qed.

(** An executable failing three times, each retry inside the window, and
    succeeding on the fourth call. *)
Definition flaky_fourth : attempts Z :=
  fun k => (Z.of_nat (10 * k), if Nat.ltb k 3 then Err (ApiError "503") else Ok 42%Z).

Lemma execute_first_success_witness :
  execute flaky_fourth = Ok 42%Z /\ (retry_calls execute_policy flaky_fourth).2 = 4.
Proof.
  apply (execute_first_success flaky_fourth 3 42%Z); [lia | | reflexivity].
  intros j Hj. destruct j as [|[|[|]]]; try lia; (split; [eexists; reflexivity | vm_compute; discriminate]).
Defined.

(** An executable that always fails: the fourth call's exception propagates. *)
Definition always_503 : attempts Z := fun k => (Z.of_nat (10 * k), Err (ApiError "503")).

Lemma execute_error_is_last_witness :
  (always_503 (pred (retry_calls execute_policy always_503).2)).2 = Err (ApiError "503").
Proof. apply execute_error_is_last. reflexivity. Defined.

(** C23: the retry window closes the loop: when the calls before call
    [k] failed with retries inside the window, call [k] fails too, and the
    call after it would start more than sixty seconds after the first
    call, [execute] raises call [k]'s exception after [k + 1] calls, even
    with calls left in its budget. *)
Theorem execute_window_closed {A} (executable_resource : attempts A) k e :
  k < 3 ->
  (forall j, j < k -> (exists e0, (executable_resource j).2 = Err e0) /\
                      ((executable_resource (S j)).1 <= 60)%Z) ->
  (executable_resource k).2 = Err e ->
  (60 < (executable_resource (S k)).1)%Z ->
  execute executable_resource = Err e /\ (retry_calls execute_policy executable_resource).2 = S k.
Proof.
  intros Hk Hfail He Hlate.
  assert (E : retry_calls execute_policy executable_resource = (Err e, S k)).
  { apply (retry_loop_window_closed _ _ 0 _ k); [| simpl; lia | done | done].
    intros j Hj. destruct (Hfail j ltac:(lia)) as [[e0 He0] Hw]. split; [by exists e0 | done]. }
  unfold execute, retry. by rewrite E.
Qed.

(** An executable whose first call times out and whose second call would
    start two minutes later. *)
Definition slow_retry : attempts Z :=
  fun k => (Z.of_nat (120 * k), if Nat.eqb k 0 then Err (ApiError "timeout") else Ok 1%Z).

Lemma execute_window_closed_witness :
  execute slow_retry = Err (ApiError "timeout") /\ (retry_calls execute_policy slow_retry).2 = 1.
Proof.
  apply (execute_window_closed slow_retry 0); [lia | intros j Hj; lia | reflexivity | vm_compute; reflexivity].
Defined.
