(* ===== verification/Pagination.v ===== *)
(** * The paginated fetcher: [call_api] of [api_caller.py]

    [call_api(resource_method, resource_parameters, response_property,
    results)] calls the SDK method with the parameters, runs the request
    through [execute] (the retry of [Retry.v]), extends [results] with
    [response.get(response_property, [])], and follows
    [response.get("nextPageToken")] until it is falsy, writing each token
    into [resource_parameters["pageToken"]].

    Both [resource_parameters] and [results] are Python objects owned by
    the caller and mutated in place, so the model threads them as a state
    [fetch_state] and returns the state reached also when an exception
    propagates.  The [@tail_recursive] decorator turns the recursion into a
    loop that runs as long as the server keeps answering with a token; the
    model bounds it by [fuel] pages and reports [OutOfFuel] when the bound
    is reached, and the completeness theorem shows that fuel equal to the
    number of pages is enough. *)

From S2P Require Import Prelude Json Retry.

(** A request built by calling [resource_method] with the parameters as
    keyword arguments: the oracle
    of what its successive [execute()] calls return. *)
Definition resource_method := list (string * json) -> attempts json.

(** The caller-visible objects the loop mutates. *)
Record fetch_state := {
  resource_parameters : list (string * json);
  results : list json
}.

Section CallApi.
Context (rm : resource_method) (response_property : string).

(** The items of one response: [response.get(response_property, [])],
    as [list.extend] iterates it. *)
Definition page_items (response : json) : result (list json) :=
  let! v := py_get response response_property (JList []) in py_iter v.

(** One iteration of the body of [call_api]. *)
Fixpoint call_api_loop (fuel : nat) (st : fetch_state) : result (list json) * fetch_state :=
  match fuel with
  | 0 => (Err OutOfFuel, st)
  | S fuel' =>
      match execute (rm (resource_parameters st)) with
      | Err e => (Err e, st)
      | Ok response =>
          match page_items response with
          | Err e => (Err e, st)
          | Ok items =>
              let st1 := {| resource_parameters := resource_parameters st;
                            results := results st ++ items |} in
              match py_get response "nextPageToken" JNone with
              | Err e => (Err e, st1)
              | Ok next_page_token =>
                  if negb (py_truthy next_page_token) then (Ok (results st1), st1)
                  else call_api_loop fuel'
                         {| resource_parameters :=
                              assoc_set "pageToken" next_page_token (resource_parameters st1);
                            results := results st1 |}
              end
          end
      end
  end.

(** [call_api(...)], with [results=None] replaced by a fresh list. *)
Definition call_api (fuel : nat) (params : list (string * json))
    (results0 : option (list json)) : result (list json) * fetch_state :=
  call_api_loop fuel {| resource_parameters := params;
                        results := stdpp.option.default [] results0 |}.

(** ** Abstract specification: the chain of pages the server serves

    [pages params ps final]: requesting with [params] and following the
    tokens yields the item lists [ps], the last response has a falsy
    token, and [final] is the parameter dict after the last token was
    written. *)
Inductive pages : list (string * json) -> list (list json) -> list (string * json) -> Prop :=
  | pages_last params response items tok :
      execute (rm params) = Ok response ->
      page_items response = Ok items ->
      py_get response "nextPageToken" JNone = Ok tok ->
      py_truthy tok = false ->
      pages params [items] params
  | pages_next params response items tok ps final :
      execute (rm params) = Ok response ->
      page_items response = Ok items ->
      py_get response "nextPageToken" JNone = Ok tok ->
      py_truthy tok = true ->
      pages (assoc_set "pageToken" tok params) ps final ->
      pages params (items :: ps) final.

Lemma pages_nonempty params ps final : pages params ps final -> ps <> [].
Proof. by destruct 1. Qed.

(** Completeness: with one unit of fuel per page, the loop returns the
    accumulated items followed by every page's items in page order. *)
Lemma call_api_loop_complete params ps final acc fuel :
  pages params ps final -> length ps <= fuel ->
  call_api_loop fuel {| resource_parameters := params; results := acc |} =
    (Ok (acc ++ concat ps), {| resource_parameters := final; results := acc ++ concat ps |}).
Proof.
  intros Hp. revert acc fuel.
  induction Hp as [params resp items tok Hx Hi Ht Hf
                  |params resp items tok ps final Hx Hi Ht Hf Hp IH];
    intros acc [|fuel] Hlen; simpl in *; try lia.
  - rewrite Hx, Hi, Ht, Hf, app_nil_r. done.
  - rewrite Hx, Hi, Ht, Hf. simpl. rewrite IH by lia. by rewrite app_assoc.
Qed.

(** Soundness: a returned list is the accumulated items followed by a
    chain of at most [fuel] pages the server really serves. *)
Lemma call_api_loop_sound fuel st r st' :
  call_api_loop fuel st = (Ok r, st') ->
  exists ps, pages (resource_parameters st) ps (resource_parameters st') /\
             length ps <= fuel /\ r = results st ++ concat ps /\ results st' = r.
Proof.
  revert st. induction fuel as [|fuel IH]; intros [params acc]; simpl; [congruence |].
  destruct (execute (rm params)) as [resp|] eqn:Hx; [|congruence].
  destruct (page_items resp) as [items|] eqn:Hi; [|congruence].
  destruct (py_get resp "nextPageToken" JNone) as [tok|] eqn:Ht; [|congruence].
  destruct (py_truthy tok) eqn:Hf; simpl; intros H.
  - destruct (IH _ H) as (ps & Hp & Hlen & -> & ?); simpl in *.
    exists (items :: ps). split; [eapply pages_next; eauto |]. simpl.
    split; [lia |]. by rewrite app_assoc.
  - injection H as <- <-. exists [items]. simpl.
    split; [eapply pages_last; eauto | split; [lia | by rewrite app_nil_r]].
Qed.

End CallApi.

(** A prefix of the chain: pages whose tokens are all truthy, ending at
    the parameters of the next request. *)
Inductive pages_prefix (rm : resource_method) (prop : string) :
    list (string * json) -> list (list json) -> list (string * json) -> Prop :=
  | prefix_nil params : pages_prefix rm prop params [] params
  | prefix_cons params response items tok ps next :
      execute (rm params) = Ok response ->
      page_items prop response = Ok items ->
      py_get response "nextPageToken" JNone = Ok tok ->
      py_truthy tok = true ->
      pages_prefix rm prop (assoc_set "pageToken" tok params) ps next ->
      pages_prefix rm prop params (items :: ps) next.

Lemma call_api_loop_prefix rm prop params ps next acc fuel :
  pages_prefix rm prop params ps next ->
  call_api_loop rm prop (length ps + fuel) {| resource_parameters := params; results := acc |} =
  call_api_loop rm prop fuel {| resource_parameters := next; results := acc ++ concat ps |}.
Proof.
  intros Hp. revert acc. induction Hp as [|params resp items tok ps next Hx Hi Ht Hf Hp IH];
    intros acc; simpl; [by rewrite app_nil_r |].
  rewrite Hx, Hi, Ht, Hf. simpl. rewrite IH. by rewrite app_assoc.
Qed.

(** ** Properties of [call_api] *)

(** C8: pagination is complete and terminates: when the server serves a
    chain of pages, [call_api] with [results=None] and one unit of fuel per
    page returns every page's items in page order, and leaves the caller's
    parameter dict holding the last token written. *)
Theorem call_api_complete rm prop params ps final fuel :
  pages rm prop params ps final -> length ps <= fuel ->
  call_api rm prop fuel params None =
    (Ok (concat ps), {| resource_parameters := final; results := concat ps |}).
Proof. intros Hp Hlen. exact (call_api_loop_complete rm prop params ps final [] fuel Hp Hlen). Qed.

(** C9: [call_api] returns only what the server serves: a returned list is
    the concatenation of a chain of pages of at most [fuel] pages. *)
Theorem call_api_sound rm prop fuel params r st :
  call_api rm prop fuel params None = (Ok r, st) ->
  exists ps, pages rm prop params ps (resource_parameters st) /\ length ps <= fuel /\ r = concat ps.
Proof.
  intros H. destruct (call_api_loop_sound rm prop _ _ _ _ H) as (ps & Hp & Hlen & Hr & _).
  exists ps. auto.
Qed.

(** C10: a page request that fails after its retries aborts the fetch with
    the retry's exception; the caller's dict keeps the token of the failed
    request and the caller's list keeps the items of the pages before it. *)
Theorem call_api_error_propagates rm prop params ps next acc e fuel :
  pages_prefix rm prop params ps next ->
  execute (rm next) = Err e ->
  call_api_loop rm prop (length ps + S fuel) {| resource_parameters := params; results := acc |} =
    (Err e, {| resource_parameters := next; results := acc ++ concat ps |}).
Proof. intros Hp Hx. rewrite (call_api_loop_prefix _ _ _ _ _ _ _ Hp). simpl. by rewrite Hx. Qed.

(** C11: a response whose [nextPageToken] is present but empty ends the
    pagination: [if not next_page_token] treats [""] as absent. *)
Theorem call_api_empty_token_stops rm prop params kvs items fuel :
  execute (rm params) = Ok (JDict kvs) ->
  page_items prop (JDict kvs) = Ok items ->
  assoc_get "nextPageToken" kvs = Some (JStr "") ->
  call_api rm prop (S fuel) params None = (Ok items, {| resource_parameters := params; results := items |}).
Proof. intros Hx Hi Ht. unfold call_api. simpl. rewrite Hx, Hi. simpl. by rewrite Ht. Qed.

(** C12: A missing item field is an empty page, not an error (spec §7). *)
Theorem page_items_missing prop kvs :
  assoc_get prop kvs = None -> page_items prop (JDict kvs) = Ok [].
Proof. intros H. unfold page_items. simpl. by rewrite H. Qed.

(** C24: a response that is not a dict aborts the fetch at
    [response.get(...)] with an [AttributeError], before the caller's list
    or parameter dict is touched. *)
Theorem call_api_non_dict_response rm prop params acc response fuel :
  execute (rm params) = Ok response ->
  (forall kvs, response <> JDict kvs) ->
  call_api rm prop (S fuel) params (Some acc) =
    (Err (AttributeError "get"), {| resource_parameters := params; results := acc |}).
Proof.
  intros Hx Hnd. unfold call_api. simpl. rewrite Hx.
  destruct response as [| | | | |kvs]; try done. by destruct (Hnd kvs).
Qed.

(** ** A three-page server *)

Definition demo_page (n : Z) (tok : option string) : json :=
  JDict ([("courses", JList [JInt (2 * n - 1); JInt (2 * n)])] ++
         match tok with Some t => [("nextPageToken", JStr t)] | None => [] end).

Definition demo_server : resource_method := fun params _ =>
  (0%Z, Ok match assoc_get "pageToken" params with
           | None => demo_page 1 (Some "p2")
           | Some (JStr t) => if String.eqb t "p2" then demo_page 2 (Some "p3") else demo_page 3 None
           | Some _ => demo_page 3 None
           end).

Definition demo_params : list (string * json) := [("courseId", JStr "c1")].

Lemma demo_pages :
  pages demo_server "courses" demo_params
    [[JInt 1; JInt 2]; [JInt 3; JInt 4]; [JInt 5; JInt 6]]
    [("courseId", JStr "c1"); ("pageToken", JStr "p3")].
Proof.
  eapply pages_next; try reflexivity.
  eapply pages_next; try reflexivity.
  eapply pages_last; reflexivity.
Qed.

Lemma call_api_complete_witness :
  call_api demo_server "courses" 3 demo_params None =
    (Ok [JInt 1; JInt 2; JInt 3; JInt 4; JInt 5; JInt 6],
     {| resource_parameters := [("courseId", JStr "c1"); ("pageToken", JStr "p3")];
        results := [JInt 1; JInt 2; JInt 3; JInt 4; JInt 5; JInt 6] |}).
Proof. apply (call_api_complete _ _ _ _ _ 3 demo_pages). simpl; lia. Defined.

Lemma call_api_sound_witness :
  exists ps, pages demo_server "courses" demo_params ps
               [("courseId", JStr "c1"); ("pageToken", JStr "p3")] /\
             length ps <= 5 /\ [JInt 1; JInt 2; JInt 3; JInt 4; JInt 5; JInt 6] = concat ps.
Proof. exact (call_api_sound demo_server "courses" 5 demo_params _ _ eq_refl). Defined.

Definition failing_second_page : resource_method := fun params k =>
  match assoc_get "pageToken" params with
  | None => (0%Z, Ok (demo_page 1 (Some "p2")))
  | Some _ => (Z.of_nat (10 * k), Err (ApiError "500"))
  end.

Lemma call_api_error_propagates_witness :
  call_api_loop failing_second_page "courses" 2 {| resource_parameters := demo_params; results := [] |} =
    (Err (ApiError "500"),
     {| resource_parameters := [("courseId", JStr "c1"); ("pageToken", JStr "p2")];
        results := [JInt 1; JInt 2] |}).
Proof.
  apply (call_api_error_propagates failing_second_page "courses" demo_params [[JInt 1; JInt 2]] _ [] _ 0).
  - eapply prefix_cons; try reflexivity. apply prefix_nil.
  - reflexivity.
Defined.

Definition empty_token_server : resource_method := fun _ _ =>
  (0%Z, Ok (JDict [("courses", JList [JInt 7]); ("nextPageToken", JStr "")])).

Lemma call_api_empty_token_stops_witness :
  call_api empty_token_server "courses" 10 demo_params None =
    (Ok [JInt 7], {| resource_parameters := demo_params; results := [JInt 7] |}).
Proof. apply (call_api_empty_token_stops _ _ _ [("courses", JList [JInt 7]); ("nextPageToken", JStr "")]); reflexivity. Defined.

Lemma page_items_missing_witness :
  page_items "courses" (JDict [("nextPageToken", JStr "p2")]) = Ok [].
Proof. apply page_items_missing. reflexivity. Defined.

(** A server answering with a bare list instead of a dict. *)
Definition list_server : resource_method := fun _ _ => (0%Z, Ok (JList [JInt 1])).

Lemma call_api_non_dict_response_witness :
  call_api list_server "courses" 1 demo_params (Some [JInt 0]) =
    (Err (AttributeError "get"), {| resource_parameters := demo_params; results := [JInt 0] |}).
Proof. apply (call_api_non_dict_response _ _ _ _ (JList [JInt 1])); [reflexivity | discriminate]. Defined.

