(* ===== verification/RequestClient.v ===== *)
(** * The Schoology API client: [request_client.py]

    [RequestClient] holds an OAuth1 session, the base URL and the consumer
    key and secret.  Every request goes through [_get], which builds the
    OAuth PLAINTEXT [Authorization] header of [_request_header] (a fresh
    eight-digit nonce from [random.randint(0, 9)] and [time.time()]), sends
    a GET to [base_url + url] and parses the JSON body.  The collection
    methods loop over section ids ([get_assignments_by_section_ids]) or
    pick a field of the response ([get_users]).

    Effects are explicit: the server is a function from the request sent to
    the parsed body (or the exception [response.json()] or the session
    raises); the outputs of the random generator and the clock reading of
    the [n]-th request come from an oracle, and [randint] reduces an
    output to its range; and the client's state is the log of the requests
    sent so far, so that the order and number of requests are observable. *)

From S2P Require Import Prelude Json.
From stdpp Require Import pretty.

Definition DEFAULT_URL : string := "https://api.schoology.com/v1/".

Record OAuth1Session := { client_key : string; client_secret : string }.

Record RequestClient := {
  oauth : OAuth1Session;
  base_url : string;
  consumer_key : string;
  consumer_secret : string
}.

(** [RequestClient(schoology_key, schoology_secret, base_url=DEFAULT_URL)] *)
Definition RequestClient_init (schoology_key schoology_secret : string)
    (base_url : string) : RequestClient := {|
  oauth := {| client_key := schoology_key; client_secret := schoology_secret |};
  base_url := base_url;
  consumer_key := schoology_key;
  consumer_secret := schoology_secret
|}.

(** A double quote, which the header puts around every value. *)
Definition dq : string := String (Ascii.ascii_of_nat 34) EmptyString.

(** [f'...="{v}",'] *)
Definition oauth_field (name value : string) : string := name +:+ "=" +:+ dq +:+ value +:+ dq.

(** [random.randint(a, b)]: an integer of [[a, b]] obtained from the raw
    output [raw] of the generator.  The library's contract is the range;
    how the generator's output is reduced to it is immaterial here. *)
Definition randint (a b : Z) (raw : Z) : Z := a + raw mod (b - a + 1).

(** The nonce of line 45,
    [''.join([str(random.randint(0, 9)) for i in range(8)])], for a
    generator whose [i]-th output is [rng i]. *)
Definition nonce_of (rng : nat -> Z) : string :=
  String.concat "" (map (fun i => pretty (randint 0 9 (rng i))) (seq 0 8)).

(** [_request_header], for the generator's outputs and the clock reading of
    this request. *)
Definition _request_header (self : RequestClient) (rng : nat -> Z) (timestamp : string) :
    list (string * string) :=
  let auth_header := [
    "OAuth realm=" +:+ dq +:+ "Schoology API" +:+ dq +:+ ",";
    oauth_field "oauth_consumer_key" (consumer_key self) +:+ ",";
    oauth_field "oauth_token" "" +:+ ",";
    oauth_field "oauth_nonce" (nonce_of rng) +:+ ",";
    oauth_field "oauth_timestamp" timestamp +:+ ",";
    oauth_field "oauth_signature_method" "PLAINTEXT" +:+ ",";
    oauth_field "oauth_version" "1.0" +:+ ",";
    oauth_field "oauth_signature" (consumer_secret self +:+ "%26" +:+ "")] in
  [("Authorization", String.concat "" auth_header);
   ("Accept", "application/json");
   ("Host", "api.schoology.com");
   ("Content-Type", "application/json")].

Record http_request := { req_url : string; req_headers : list (string * string) }.

(** The client's state: the requests sent, oldest first. *)
Abbreviation request_log := (list http_request) (only parsing).

(** A computation of the client: the outcome and the log after it. *)
Definition client_m (A : Type) := list http_request -> result A * list http_request.

Definition cret {A} (a : A) : client_m A := fun log => (Ok a, log).
Definition cfail {A} (e : exn) : client_m A := fun log => (Err e, log).
Definition cbind {A B} (m : client_m A) (k : A -> client_m B) : client_m B :=
  fun log => match m log with
             | (Ok a, log') => k a log'
             | (Err e, log') => (Err e, log')
             end.
Definition clift {A} (r : result A) : client_m A := fun log => (r, log).

Notation "'let@' x ':=' m 'in' k" := (cbind m (fun x => k))
  (at level 10, x name, m at level 100, k at level 200) : lms_scope.

Section Client.
(** The Schoology server: the parsed body of the response to a request. *)
Context (server : http_request -> result json).
(** The generator's outputs and the [time.time()] reading of the [n]-th
    request. *)
Context (entropy : nat -> (nat -> Z) * string).

(** [_get(url)] *)
Definition _get (self : RequestClient) (url : option string) : client_m json :=
  fun log =>
    match url with
    | None => (Err AssertionError, log)
    | Some u =>
        let '(rng, timestamp) := entropy (length log) in
        let req := {| req_url := base_url self +:+ u;
                      req_headers := _request_header self rng timestamp |} in
        (server req, log ++ [req])
    end.

(** The loop body of [get_assignments_by_section_ids]. *)
Fixpoint assignments_loop (self : RequestClient) (section_ids : list json)
    (assignments : list json) : client_m (list json) :=
  match section_ids with
  | [] => cret assignments
  | section_id :: rest =>
      let url := "sections/" +:+ py_str section_id +:+ "/assignments" in
      let@ response := _get self (Some url) in
      let@ present := clift (py_in_str "assignment" response) in
      if present then
        let@ page := clift (py_getitem_str response "assignment") in
        let@ assignments' := clift (py_list_add assignments page) in
        assignments_loop self rest assignments'
      else assignments_loop self rest assignments
  end.

Definition get_assignments_by_section_ids (self : RequestClient) (section_ids : option (list json)) :
    client_m (list json) :=
  match section_ids with
  | None => cfail AssertionError
  | Some ids => assignments_loop self ids []
  end.

Definition get_section_by_id (self : RequestClient) (section_id : json) : client_m json :=
  match section_id with
  | JNone => cfail AssertionError
  | _ => _get self (Some ("sections/" +:+ py_str section_id))
  end.

Definition get_submissions_by_section_id (self : RequestClient) (section_id : json) : client_m json :=
  match section_id with
  | JNone => cfail AssertionError
  | _ => _get self (Some ("sections/" +:+ py_str section_id +:+ "/submissions"))
  end.

Definition get_users (self : RequestClient) : client_m json :=
  let@ response := _get self (Some "users") in
  let@ present := clift (py_in_str "user" response) in
  if present then clift (py_getitem_str response "user") else cret (JList []).
End Client.

(** ** Properties of the client *)

Definition assignments_url (self : RequestClient) (section_id : json) : string :=
  base_url self +:+ ("sections/" +:+ py_str section_id +:+ "/assignments").

(** The server answers every request for [url], whatever its headers, with
    [v]. *)
Definition responds (server : http_request -> result json) (url : string) (v : json) : Prop :=
  forall hs, server {| req_url := url; req_headers := hs |} = Ok v.

(** The list [response.get("assignment")] contributes to the result. *)
Definition assignment_field (kvs : list (string * json)) : option (list json) :=
  match assoc_get "assignment" kvs with
  | None => Some []
  | Some (JList l) => Some l
  | Some _ => None
  end.

(** A request sent by [self]: an [Authorization] header of its own and a
    URL under its base URL. *)
Definition signed (self : RequestClient) (req : http_request) : Prop :=
  (exists rng timestamp, req_headers req = _request_header self rng timestamp) /\
  String.prefix (base_url self) (req_url req) = true.

Lemma prefix_app (a b : string) : String.prefix a (a +:+ b) = true.
Proof. induction a as [|c a IH]; simpl; [by destruct b |]. by destruct (Ascii.ascii_dec c c). Qed.

Section ClientProps.
Context (server : http_request -> result json) (entropy : nat -> (nat -> Z) * string).

Lemma _get_some self u log :
  _get server entropy self (Some u) log =
    (server {| req_url := base_url self +:+ u;
               req_headers := _request_header self (entropy (length log)).1 (entropy (length log)).2 |},
     log ++ [{| req_url := base_url self +:+ u;
                req_headers := _request_header self (entropy (length log)).1 (entropy (length log)).2 |}]).
Proof. unfold _get. by destruct (entropy (length log)). Qed.

(** The request [_get] sends for [url] as the [n]-th request. *)
Definition request_for (self : RequestClient) (url : string) (n : nat) : http_request :=
  {| req_url := base_url self +:+ url;
     req_headers := _request_header self (entropy n).1 (entropy n).2 |}.

(** One iteration of the loop on a section whose response is a dict with a
    usable [assignment] field. *)
Lemma assignments_loop_step self id l rest acc log kvs :
  responds server (assignments_url self id) (JDict kvs) -> assignment_field kvs = Some l ->
  assignments_loop server entropy self (id :: rest) acc log =
    assignments_loop server entropy self rest (acc ++ l)
      (log ++ [request_for self ("sections/" +:+ py_str id +:+ "/assignments") (length log)]).
Proof.
  intros Hr Hf. simpl. unfold cbind at 1. rewrite _get_some, Hr. unfold assignment_field in Hf.
  cbv [cbind clift]. simpl. destruct (assoc_get "assignment" kvs) as [v|]; simpl.
  - destruct v as [| | | |l'|]; try discriminate Hf. by injection Hf as ->.
  - injection Hf as <-. by rewrite app_nil_r.
Qed.

(** The loop over sections answered as in [Forall2] is skipped over: it
    continues with the rest of the ids, every page appended, one request
    per section in order. *)
Lemma assignments_loop_app self ids ls rest acc log :
  Forall2 (fun id l => exists kvs, responds server (assignments_url self id) (JDict kvs) /\
                                   assignment_field kvs = Some l) ids ls ->
  exists reqs, assignments_loop server entropy self (ids ++ rest) acc log =
    assignments_loop server entropy self rest (acc ++ concat ls) (log ++ reqs) /\
    map req_url reqs = map (assignments_url self) ids.
Proof.
  intros Hall. revert acc log.
  induction Hall as [|id l ids ls (kvs & Hr & Hf) _ IH]; intros acc log.
  - exists []. by rewrite !app_nil_r.
  - simpl app. rewrite (assignments_loop_step _ _ l _ _ _ kvs) by done.
    match goal with |- context [assignments_loop _ _ _ _ ?a ?lg] =>
      destruct (IH a lg) as (reqs & -> & Hurl) end.
    eexists. split; [by rewrite <- !app_assoc |]. simpl. by rewrite Hurl.
Qed.

Lemma _get_log self url log :
  exists reqs, (_get server entropy self url log).2 = log ++ reqs /\ length reqs <= 1 /\
               Forall (signed self) reqs.
Proof.
  destruct url as [u|]; [| exists []; simpl; rewrite app_nil_r; auto].
  rewrite _get_some. eexists. split; [done |]. split; [simpl; lia |].
  repeat constructor; [eauto | apply prefix_app].
Qed.

(** A client computation that appends at most [n] signed requests. *)
Definition appends_signed {A} (self : RequestClient) (n : nat) (m : client_m A) : Prop :=
  forall log, exists reqs, (m log).2 = log ++ reqs /\ length reqs <= n /\ Forall (signed self) reqs.

Lemma appends_signed_get self url : appends_signed self 1 (_get server entropy self url).
Proof. intros log. apply _get_log. Qed.

Lemma appends_signed_ret {A} self n (r : result A) : appends_signed self n (clift r).
Proof. intros log. exists []. simpl. rewrite app_nil_r. split; [done | split; [lia | constructor]]. Qed.

Lemma appends_signed_bind {A B} self n k (m : client_m A) (f : A -> client_m B) :
  appends_signed self n m -> (forall a, appends_signed self k (f a)) ->
  appends_signed self (n + k) (cbind m f).
Proof.
  intros Hm Hf log. unfold cbind. destruct (Hm log) as (r1 & E1 & L1 & F1).
  destruct (m log) as [[a|e] log1]; simpl in *; subst log1.
  - destruct (Hf a (log ++ r1)) as (r2 & E2 & L2 & F2). rewrite E2.
    exists (r1 ++ r2). rewrite app_assoc, length_app. split; [done | split; [lia |]].
    by apply Forall_app.
  - exists r1. split; [done | split; [lia | done]].
Qed.

Lemma appends_signed_weaken {A} self n n' (m : client_m A) :
  n <= n' -> appends_signed self n m -> appends_signed self n' m.
Proof. intros Hle Hm log. destruct (Hm log) as (r & ? & ? & ?). exists r. split; [done | split; [lia | done]]. Qed.

Lemma assignments_loop_appends self ids acc :
  appends_signed self (length ids) (assignments_loop server entropy self ids acc).
Proof.
  revert acc. induction ids as [|id ids IH]; intros acc; simpl.
  - apply appends_signed_ret.
  - change (S (length ids)) with (1 + (0 + (0 + (0 + length ids)))).
    apply appends_signed_bind; [apply appends_signed_get | intros response].
    apply appends_signed_bind; [apply appends_signed_ret | intros [|]].
    + apply appends_signed_bind; [apply appends_signed_ret | intros page].
      apply appends_signed_bind; [apply appends_signed_ret | intros acc']. apply IH.
    + apply IH.
Qed.
End ClientProps.

Lemma concat_empty_sep (l : list string) : String.concat "" l = foldr String.append "" l.
Proof.
  induction l as [|x [|y l] IH]; [done | |].
  - simpl. induction x as [|c x IHx]; [reflexivity |].
    change (String c x = String c (x +:+ "")). by rewrite <- IHx.
  - change (x +:+ ("" +:+ String.concat "" (y :: l)) = x +:+ foldr String.append "" (y :: l)).
    by rewrite IH.
Qed.

Lemma pretty_digit (d : Z) :
  (0 <= d <= 9)%Z -> exists c, pretty d = String c EmptyString /\ 48 <= Ascii.nat_of_ascii c <= 57.
Proof.
  intros Hd.
  assert (d = 0 \/ d = 1 \/ d = 2 \/ d = 3 \/ d = 4 \/ d = 5 \/ d = 6 \/ d = 7 \/ d = 8 \/ d = 9)%Z
    as Hcases by lia.
  repeat destruct Hcases as [->|Hcases]; subst; eexists; (split; [reflexivity | vm_compute; lia]).
Qed.

(** C20: every request [get_assignments_by_section_ids] sends is signed by
    the client and goes under its base URL, and it sends at most one
    request per section id; the same holds of [get_section_by_id],
    [get_submissions_by_section_id] and [get_users] with one request. *)
Theorem client_requests_signed server entropy self ids section_id :
  appends_signed self (length (stdpp.option.default [] ids))
    (get_assignments_by_section_ids server entropy self ids) /\
  appends_signed self 1 (get_section_by_id server entropy self section_id) /\
  appends_signed self 1 (get_submissions_by_section_id server entropy self section_id) /\
  appends_signed self 1 (get_users server entropy self).
Proof.
  split; [| split; [| split]].
  - destruct ids as [ids|]; simpl; [apply assignments_loop_appends | apply appends_signed_ret].
  - destruct section_id; try apply appends_signed_get; apply appends_signed_ret.
  - destruct section_id; try apply appends_signed_get; apply appends_signed_ret.
  - change 1 with (1 + (0 + 0)).
    apply appends_signed_bind; [apply appends_signed_get | intros response].
    apply appends_signed_bind; [apply appends_signed_ret | intros [|]]; apply appends_signed_ret.
Qed.

(** C19: [get_assignments_by_section_ids] requests
    [sections/<id>/assignments] for every id, in order, and returns the
    concatenation of the [assignment] lists of the responses, a response
    without the field contributing nothing. *)
Theorem get_assignments_by_section_ids_complete server entropy self ids ls log :
  Forall2 (fun id l => exists kvs, responds server (assignments_url self id) (JDict kvs) /\
                                   assignment_field kvs = Some l) ids ls ->
  exists reqs, get_assignments_by_section_ids server entropy self (Some ids) log =
    (Ok (concat ls), log ++ reqs) /\ map req_url reqs = map (assignments_url self) ids.
Proof.
  intros Hall. destruct (assignments_loop_app server entropy self ids ls [] [] log Hall) as (reqs & E & Hurl).
  exists reqs. simpl. rewrite app_nil_r in E. by rewrite E.
Qed.

(** C25: a section whose request fails aborts
    [get_assignments_by_section_ids] with the request's exception: the
    sections before it are requested in order, the failed one last, and no
    later section is requested. *)
Theorem get_assignments_by_section_ids_aborts server entropy self ids ls bad rest e log :
  Forall2 (fun id l => exists kvs, responds server (assignments_url self id) (JDict kvs) /\
                                   assignment_field kvs = Some l) ids ls ->
  (forall hs, server {| req_url := assignments_url self bad; req_headers := hs |} = Err e) ->
  exists reqs, get_assignments_by_section_ids server entropy self (Some (ids ++ bad :: rest)) log =
    (Err e, log ++ reqs) /\ map req_url reqs = map (assignments_url self) (ids ++ [bad]).
Proof.
  intros Hall Hbad. destruct (assignments_loop_app server entropy self ids ls (bad :: rest) [] log Hall)
    as (reqs & E & Hurl).
  simpl. rewrite E. simpl. unfold cbind at 1. rewrite _get_some, Hbad.
  eexists. split; [by rewrite <- app_assoc |]. by rewrite map_app, Hurl, map_app.
Qed.

(** [str()] of digits, concatenated, is a string of as many digits. *)
Lemma digits_concat (draws : list Z) :
  Forall (fun d => 0 <= d <= 9)%Z draws ->
  String.length (String.concat "" (map pretty draws)) = length draws /\
  Forall (fun c => 48 <= Ascii.nat_of_ascii c <= 57)
    (String.list_ascii_of_string (String.concat "" (map pretty draws))).
Proof.
  intros Hd. rewrite concat_empty_sep.
  induction Hd as [|d ds Hd _ [IHl IHd]]; [split; [done | constructor] |].
  destruct (pretty_digit d Hd) as (c & Hc & Hr). cbn [map foldr]. rewrite Hc.
  split.
  - change (S (String.length (foldr String.append "" (map pretty ds))) = S (length ds)). by rewrite IHl.
  - change (Forall (fun c => 48 <= Ascii.nat_of_ascii c <= 57)
              (c :: String.list_ascii_of_string (foldr String.append "" (map pretty ds)))).
    by constructor.
Qed.

(** C21: whatever the generator returns, the OAuth nonce is eight decimal
    digits: [randint(0, 9)] gives one digit and [range(8)] eight of them. *)
Theorem nonce_eight_digits (rng : nat -> Z) :
  String.length (nonce_of rng) = 8 /\
  Forall (fun c => 48 <= Ascii.nat_of_ascii c <= 57) (String.list_ascii_of_string (nonce_of rng)).
Proof.
  unfold nonce_of. rewrite <- (map_map (fun i => randint 0 9 (rng i)) pretty).
  destruct (digits_concat (map (fun i => randint 0 9 (rng i)) (seq 0 8))) as [Hl Hc].
  - apply Forall_forall. intros d (i & <- & _)%list_elem_of_In%in_map_iff. unfold randint.
    pose proof (Z.mod_pos_bound (rng i) (9 - 0 + 1) ltac:(lia)). lia.
  - split; [by rewrite Hl, length_map | exact Hc].
Qed.

(** C22: [get_users] returns the [user] field of a dict response and an
    empty list when the field is missing. *)
Theorem get_users_field server entropy self kvs log :
  responds server (base_url self +:+ "users") (JDict kvs) ->
  (get_users server entropy self log).1 = Ok (stdpp.option.default (JList []) (assoc_get "user" kvs)).
Proof.
  intros Hr. unfold get_users. cbv [cbind]. rewrite _get_some, Hr. cbv [clift]. simpl.
  destruct (assoc_get "user" kvs); reflexivity.
Qed.

(** ** A concrete client *)

Definition demo_client : RequestClient := RequestClient_init "key" "secret" DEFAULT_URL.

Definition demo_server (req : http_request) : result json :=
  if String.eqb (req_url req) (DEFAULT_URL +:+ "sections/1/assignments")
  then Ok (JDict [("assignment", JList [JInt 11; JInt 12])])
  else if String.eqb (req_url req) (DEFAULT_URL +:+ "sections/2/assignments")
  then Ok (JDict [("total", JInt 0)])
  else if String.eqb (req_url req) (DEFAULT_URL +:+ "users")
  then Ok (JDict [("user", JList [JStr "u1"])])
  else Err (ApiError "404").

Definition demo_entropy (n : nat) : (nat -> Z) * string := (fun i => Z.of_nat (i + n), "1700000000.0").

Lemma get_assignments_by_section_ids_complete_witness :
  exists reqs, get_assignments_by_section_ids demo_server demo_entropy demo_client
                 (Some [JStr "1"; JStr "2"]) [] =
    (Ok [JInt 11; JInt 12], [] ++ reqs) /\
    map req_url reqs = map (assignments_url demo_client) [JStr "1"; JStr "2"].
Proof.
  apply (get_assignments_by_section_ids_complete _ _ _ _ [[JInt 11; JInt 12]; []]).
  repeat constructor.
  - exists [("assignment", JList [JInt 11; JInt 12])]. split; [intros hs; reflexivity | reflexivity].
  - exists [("total", JInt 0)]. split; [intros hs; reflexivity | reflexivity].
Defined.

Lemma get_assignments_by_section_ids_aborts_witness :
  exists reqs, get_assignments_by_section_ids demo_server demo_entropy demo_client
                 (Some ([JStr "1"] ++ JStr "9" :: [JStr "2"])) [] =
    (Err (ApiError "404"), [] ++ reqs) /\
    map req_url reqs = map (assignments_url demo_client) ([JStr "1"] ++ [JStr "9"]).
Proof.
  apply (get_assignments_by_section_ids_aborts _ _ _ _ [[JInt 11; JInt 12]]).
  - repeat constructor. exists [("assignment", JList [JInt 11; JInt 12])].
    split; [intros hs; reflexivity | reflexivity].
  - intros hs. reflexivity.
Defined.

Lemma get_users_field_witness :
  (get_users demo_server demo_entropy demo_client []).1 = Ok (JList [JStr "u1"]).
Proof. apply (get_users_field _ _ _ [("user", JList [JStr "u1"])]). intros hs. reflexivity. Defined.

Example demo_header_signature :
  String.concat "" (map snd (take 1 (_request_header demo_client (fun i => nth i [0; 4; 2; 9; 9; 1; 0; 3] 0)%Z "1.5"))) =
  "OAuth realm=" +:+ dq +:+ "Schoology API" +:+ dq +:+ "," +:+
  "oauth_consumer_key=" +:+ dq +:+ "key" +:+ dq +:+ "," +:+
  "oauth_token=" +:+ dq +:+ dq +:+ "," +:+
  "oauth_nonce=" +:+ dq +:+ "04299103" +:+ dq +:+ "," +:+
  "oauth_timestamp=" +:+ dq +:+ "1.5" +:+ dq +:+ "," +:+
  "oauth_signature_method=" +:+ dq +:+ "PLAINTEXT" +:+ dq +:+ "," +:+
  "oauth_version=" +:+ dq +:+ "1.0" +:+ dq +:+ "," +:+
  "oauth_signature=" +:+ dq +:+ "secret%26" +:+ dq.
Proof. vm_compute. reflexivity. Qed.
