(* ===== verification/ResourceSync.v ===== *)
(** * The change-hash differ and sync-to-store writer

    [submissions.py] hands every fetched batch to
    [edfi_lms_extractor_lib.api.resource_sync.sync_to_db_without_cleanup]
    and then calls [cleanup_after_sync].  That library is part of the
    repository but not of the sources staged here, so this file models it
    from its contract (spec §3, §4.2):

    - a batch is a DataFrame: a list of rows, a row a list of
      (column, value) pairs;
    - the identity columns of a row give its key; the hash of a row is a
      digest of its other columns, timestamps excluded;
    - the store keeps one table per resource name, a finite map from keys to
      snapshot rows ([Hash], [CreateDate], [LastModifiedDate]), and the
      names of the staging tables the sync creates;
    - the batch is processed per key (spec §5): it is keyed by its
      identity columns (of two rows with one key the first is kept) and
      each key is compared with the table as it was before the sync;
    - a fresh row with a new key is inserted with both dates set to [now];
      one whose stored hash differs is overwritten with
      [LastModifiedDate = now] and its [CreateDate] kept; one whose hash
      matches is left alone; stored rows absent from the batch are kept;
    - the returned DataFrame is the batch with the reconciled [Hash],
      [CreateDate] and [LastModifiedDate] columns;
    - cleanup drops the resource's staging tables.

    The interface [ResourceSync] states what the client relies on; the
    implementation below is an instance of it ([Submissions.v] proves its
    laws).  The lemmas of this file are about the per-key structure of a
    sync and hold whatever one upsert ([sync_row]) does; the facts about
    [sync_row] are proved where they are used. *)

From S2P Require Import Prelude Json.

Abbreviation row := (list (string * json)) (only parsing).
Abbreviation DataFrame := (list (list (string * json))) (only parsing).

Record snapshot := {
  s_row : list (string * json);
  s_hash : string;
  create_date : time;
  last_modified_date : time
}.

Abbreviation table := (gmap (list json) snapshot) (only parsing).

Record sync_db := {
  tables : gmap string (gmap (list json) snapshot);
  staging : gset string
}.

Definition empty_db : sync_db := {| tables := ∅; staging := ∅ |}.

(** The content digest: any function of the hashed columns. *)
Class Hasher := digest : list (string * json) -> string.

Definition timestamp_columns : list string := ["CreateDate"; "LastModifiedDate"].

Definition staging_tables (resource_name : string) : gset string :=
  {[ "Sync_" +:+ resource_name; "Unmatched_" +:+ resource_name ]}.

(** ** The interface the extractors use *)

Class ResourceSync := {
  sync_to_db_without_cleanup :
    DataFrame -> list string -> string -> time -> sync_db -> DataFrame * sync_db;
  cleanup_after_sync : string -> sync_db -> sync_db
}.

Definition row_key (identity_columns : list string) (r : row) : list json :=
  map (fun c => stdpp.option.default JNone (assoc_get c r)) identity_columns.

(** What a client may assume of an implementation. *)
Class ResourceSyncLaws `{ResourceSync} := {
  (** cleanup drops the resource's staging tables and touches no data *)
  cleanup_drops_staging name db :
    staging (cleanup_after_sync name db) = staging db ∖ staging_tables name;
  cleanup_keeps_tables name db :
    tables (cleanup_after_sync name db) = tables db;
  (** a sync writes only the resource's own table *)
  sync_other_tables df ids name now db name' :
    name' <> name ->
    tables (sync_to_db_without_cleanup df ids name now db).2 !! name' = tables db !! name';
  (** a sync reads the store's tables only, not its staging tables *)
  sync_depends_on_tables df ids name now db db' :
    tables db = tables db' ->
    (sync_to_db_without_cleanup df ids name now db).1 = (sync_to_db_without_cleanup df ids name now db').1 /\
    tables (sync_to_db_without_cleanup df ids name now db).2 =
      tables (sync_to_db_without_cleanup df ids name now db').2;
  (** a second sync of the same batch changes nothing *)
  sync_idempotent df ids name now now' db :
    let '(out1, db1) := sync_to_db_without_cleanup df ids name now db in
    let '(out2, db2) := sync_to_db_without_cleanup df ids name now' db1 in
    out2 = out1 /\ tables db2 = tables db1
}.

(** ** The implementation *)

Section Impl.
Context `{Hasher}.

(** The columns the hash covers: all but identity and timestamps. *)
Definition hash_input (identity_columns : list string) (r : row) : row :=
  filter (fun kv => negb (bool_decide (kv.1 ∈ identity_columns ++ timestamp_columns))) r.

Definition row_hash (identity_columns : list string) (r : row) : string :=
  digest (hash_input identity_columns r).

(** Step 3 of §4.2 for one key: the snapshot a fresh row leaves, given the
    prior snapshot of its key. *)
Definition sync_row (identity_columns : list string) (now : time)
    (old : option snapshot) (r : row) : snapshot :=
  let h := row_hash identity_columns r in
  match old with
  | None => {| s_row := r; s_hash := h; create_date := now; last_modified_date := now |}
  | Some s =>
      if String.eqb (s_hash s) h then s
      else {| s_row := r; s_hash := h; create_date := create_date s; last_modified_date := now |}
  end.

(** The batch keyed by its identity columns (§5: a batch is processed per
    key, not row by row); of two rows with one key the first is kept. *)
Definition batch_key_pairs (identity_columns : list string) (df : DataFrame) : list (list json * row) :=
  (fun r => (row_key identity_columns r, r)) <$> df.

Definition batch_of (identity_columns : list string) (df : DataFrame) : gmap (list json) row :=
  list_to_map (batch_key_pairs identity_columns df).

(** Every key of the batch is compared with the prior table; the other
    stored keys are kept. *)
Definition sync_table (identity_columns : list string) (now : time)
    (df : DataFrame) (tbl : gmap (list json) snapshot) : gmap (list json) snapshot :=
  map_imap (fun k r => Some (sync_row identity_columns now (tbl !! k) r)) (batch_of identity_columns df)
    ∪ tbl.

(** A fresh row with the reconciled columns of its stored snapshot. *)
Definition reconciled_row (identity_columns : list string)
    (tbl : gmap (list json) snapshot) (r : row) : row :=
  match tbl !! row_key identity_columns r with
  | Some s =>
      assoc_set "LastModifiedDate" (JInt (last_modified_date s))
        (assoc_set "CreateDate" (JInt (create_date s)) (assoc_set "Hash" (JStr (s_hash s)) r))
  | None => r
  end.

Definition sync_impl (df : DataFrame) (identity_columns : list string)
    (resource_name : string) (now : time) (db : sync_db) : DataFrame * sync_db :=
  let tbl := stdpp.option.default ∅ (tables db !! resource_name) in
  let tbl' := sync_table identity_columns now df tbl in
  (map (reconciled_row identity_columns tbl') df,
   {| tables := <[resource_name := tbl']> (tables db);
      staging := staging_tables resource_name ∪ staging db |}).

Definition cleanup_impl (resource_name : string) (db : sync_db) : sync_db :=
  {| tables := tables db; staging := staging db ∖ staging_tables resource_name |}.

(** ** The batch and the table, whatever one upsert does *)

Lemma fmap_map_eq {A B} (f : A -> B) (l : list A) : f <$> l = map f l.
Proof. induction l as [|x l IH]; [done |]. simpl. by rewrite <- IH. Qed.

Lemma batch_keys ids df : (batch_key_pairs ids df).*1 = map (row_key ids) df.
Proof. unfold batch_key_pairs. rewrite <- list_fmap_compose. apply fmap_map_eq. Qed.

Lemma batch_of_in ids df r :
  NoDup (map (row_key ids) df) -> r ∈ df -> batch_of ids df !! row_key ids r = Some r.
Proof.
  intros Hnd Hin. apply elem_of_list_to_map_1; [by rewrite batch_keys |].
  apply list_elem_of_fmap. by exists r.
Qed.

Lemma batch_of_absent ids df k : k ∉ map (row_key ids) df -> batch_of ids df !! k = None.
Proof. intros Hk. apply not_elem_of_list_to_map_1. by rewrite batch_keys. Qed.

Lemma sync_table_lookup ids now df tbl k :
  sync_table ids now df tbl !! k =
    match batch_of ids df !! k with
    | Some r => Some (sync_row ids now (tbl !! k) r)
    | None => tbl !! k
    end.
Proof.
  unfold sync_table. rewrite lookup_union, map_lookup_imap.
  destruct (batch_of ids df !! k); simpl; [| by destruct (tbl !! k)].
  by destruct (tbl !! k).
Qed.

(** A key of the new table is a key of the batch, with its upsert, or a
    key the table already held. *)
Lemma sync_table_Some ids now df tbl k s :
  sync_table ids now df tbl !! k = Some s ->
  (exists r, batch_of ids df !! k = Some r /\ s = sync_row ids now (tbl !! k) r) \/ tbl !! k = Some s.
Proof. rewrite sync_table_lookup. destruct (batch_of ids df !! k); [left; naive_solver | auto]. Qed.
End Impl.

#[export] Instance resource_sync_impl `{Hasher} : ResourceSync := {|
  sync_to_db_without_cleanup := sync_impl;
  cleanup_after_sync := cleanup_impl
|}.

(** ** Stores reachable by syncs and cleanups *)

Definition dates_ok (t : time) (tbl : gmap (list json) snapshot) : Prop :=
  map_Forall (fun _ s => create_date s <= last_modified_date s <= t)%Z tbl.

(** The store states reachable from an empty store by syncs of any
    resources at non-decreasing times, interleaved with cleanups. *)
Inductive sync_run `{Hasher} : time -> sync_db -> Prop :=
  | run_empty t : sync_run t empty_db
  | run_sync t t' db df ids name :
      sync_run t db -> (t <= t')%Z -> sync_run t' (sync_impl df ids name t' db).2
  | run_cleanup t db name : sync_run t db -> sync_run t (cleanup_impl name db).

Section Dates.
Context `{Hasher}.

(** What one upsert must do for the dates: from a prior snapshot whose
    dates are ordered and not later than [t], a sync at [now >= t] leaves
    a snapshot with ordered dates not later than [now]. *)
Definition upsert_keeps_dates : Prop :=
  forall ids now t old r, (t <= now)%Z ->
    (forall s, old = Some s -> create_date s <= last_modified_date s <= t)%Z ->
    (create_date (sync_row ids now old r) <= last_modified_date (sync_row ids now old r) <= now)%Z.

Lemma dates_ok_mono t t' tbl : (t <= t')%Z -> dates_ok t tbl -> dates_ok t' tbl.
Proof. intros Ht Hok. eapply map_Forall_impl; [exact Hok |]. intros ? s. simpl. lia. Qed.

Lemma sync_table_dates ids now t df tbl :
  upsert_keeps_dates -> (t <= now)%Z -> dates_ok t tbl -> dates_ok now (sync_table ids now df tbl).
Proof.
  intros Hup Ht Hok k s Hk. apply sync_table_Some in Hk as [(r & _ & ->)|Hk].
  - apply (Hup _ _ t); [done |]. intros s' Hs'. exact (map_Forall_lookup_1 _ _ _ _ Hok Hs').
  - pose proof (map_Forall_lookup_1 _ _ _ _ Hok Hk). simpl in *. lia.
Qed.

(** A table of the store after a sync is the synced table of the
    resource, grown from an empty or the stored table, or a table the store
    already held. *)
Lemma sync_impl_table_Some df ids name now db n t :
  tables (sync_impl df ids name now db).2 !! n = Some t ->
  (exists tbl0, t = sync_table ids now df tbl0 /\ (tbl0 = ∅ \/ tables db !! name = Some tbl0)) \/
  tables db !! n = Some t.
Proof.
  unfold sync_impl. simpl. intros Hn.
  apply lookup_insert_Some in Hn as [[<- <-]|[_ Hn]].
  - left. eexists. split; [reflexivity |]. destruct (tables db !! name); simpl; auto.
  - right. revert Hn. rewrite ?lookup_empty. intros Hn. first [exact Hn | discriminate].
Qed.

(** The invariant of every reachable store, given the per-row fact. *)
Lemma sync_run_dates t db :
  upsert_keeps_dates -> sync_run t db -> map_Forall (fun _ tbl => dates_ok t tbl) (tables db).
Proof.
  intros Hup. induction 1 as [t|t t' db df ids name _ IH Ht|t db name _ IH]; simpl.
  - apply map_Forall_empty.
  - intros n tbl Hn. apply sync_impl_table_Some in Hn as [(tbl0 & -> & [-> | Htbl0])|Hn].
    + apply (sync_table_dates _ _ t); [done | done | apply map_Forall_empty].
    + apply (sync_table_dates _ _ t); [done | done | exact (map_Forall_lookup_1 _ _ _ _ IH Htbl0)].
    + apply (dates_ok_mono t); [done | exact (map_Forall_lookup_1 _ _ _ _ IH Hn)].
  - exact IH.
Qed.
End Dates.

(** ** Concrete runs *)

(** A digest for concrete runs: the Python representation of the hashed
    columns. *)
Definition repr_hasher : Hasher := fun r => py_repr (JDict r).
#[local] Existing Instance repr_hasher.

Definition sub_row (id : Z) (grade : string) : list (string * json) :=
  [("id", JInt id); ("grade", JStr grade)].

Definition batch1 : list (list (string * json)) := [sub_row 1 "80"; sub_row 2 "90"].
Definition batch2 : list (list (string * json)) := [sub_row 1 "85"; sub_row 2 "90"; sub_row 3 "70"].
Definition db_after1 : sync_db := (sync_impl batch1 ["id"] "Submissions" 10 empty_db).2.
