(* ===== verification/Submissions.v ===== *)
(** * The Canvas submissions extractor: [submissions.py]

    [request_submissions(section)] fetches every submission of a section
    ([section.get_multiple_submissions(student_ids="all")]) under the
    extractor's retry policy; [submissions_synced_as_df] converts the API
    objects to a DataFrame, synchronises it with the store through
    [_sync_without_cleanup] (identity column ["id"], resource name
    ["Submissions"]) and then drops the staging tables with
    [cleanup_after_sync].

    The client is written against the [ResourceSync] interface of
    [ResourceSync.v]; its theorems are stated at the implementation there
    ([sync_impl], [cleanup_impl]).  Each theorem proves the fact about one
    upsert ([sync_row]) it needs in its own proof, on top of the per-key
    lemmas of [ResourceSync.v], which hold whatever an upsert does.  The
    file ends with the proof that the implementation meets the interface's
    laws. *)

From S2P Require Import Prelude Json Retry ResourceSync.

Definition SUBMISSIONS_RESOURCE_NAME : string := "Submissions".

(** A Canvas [Section] object, as far as this module uses it: the attempts
    of [get_multiple_submissions] for a [student_ids] argument.  A
    submission API object is given by its attribute dict. *)
Definition canvas_section := json -> attempts (list (list (string * json))).

(** [request_submissions], under the extractor's [RETRY_CONFIG]. *)
Definition request_submissions (RETRY_CONFIG : retry_policy) (section : canvas_section) :
    result (list (list (string * json))) :=
  retry RETRY_CONFIG (section (JStr "all")).

(** [canvas_helper.to_df]: one row per API object, its attribute dict. *)
Definition to_df (objects : list (list (string * json))) : list (list (string * json)) := objects.

Section Client.
Context `{ResourceSync}.

Definition _sync_without_cleanup (resource_df : list (list (string * json))) (now : time)
    (sync_db : sync_db) : list (list (string * json)) * ResourceSync.sync_db :=
  sync_to_db_without_cleanup resource_df ["id"] SUBMISSIONS_RESOURCE_NAME now sync_db.

Definition submissions_synced_as_df (submissions : list (list (string * json))) (now : time)
    (sync_db : ResourceSync.sync_db) : list (list (string * json)) * ResourceSync.sync_db :=
  let '(submissions_df, db1) := _sync_without_cleanup (to_df submissions) now sync_db in
  (submissions_df, cleanup_after_sync SUBMISSIONS_RESOURCE_NAME db1).
End Client.

(** ** The extractor over the store of [ResourceSync.v] *)

Section WithStore.
Context `{Hasher}.

Lemma submissions_synced_as_df_impl submissions now db :
  submissions_synced_as_df submissions now db =
    ((_sync_without_cleanup submissions now db).1,
     cleanup_impl SUBMISSIONS_RESOURCE_NAME (_sync_without_cleanup submissions now db).2).
Proof. unfold submissions_synced_as_df, to_df. by destruct (_sync_without_cleanup submissions now db). Qed.

(** C5: stored submissions absent from the fetched batch are neither
    deleted nor changed. *)
Theorem submissions_synced_keeps_absent submissions now db k :
  k ∉ map (row_key ["id"]) submissions ->
  (tables (submissions_synced_as_df submissions now db).2 !! SUBMISSIONS_RESOURCE_NAME) ≫= (lookup k) =
    (stdpp.option.default ∅ (tables db !! SUBMISSIONS_RESOURCE_NAME)) !! k.
Proof.
  intros Hk. rewrite submissions_synced_as_df_impl. unfold _sync_without_cleanup, sync_impl. simpl.
  rewrite lookup_insert_eq. simpl. by rewrite sync_table_lookup, batch_of_absent.
Qed.

(** The [Submissions] table after a run, by the per-key lemma. *)
Lemma submissions_synced_lookup submissions now db k :
  (tables (submissions_synced_as_df submissions now db).2 !! SUBMISSIONS_RESOURCE_NAME) ≫= lookup k =
    match batch_of ["id"] submissions !! k with
    | Some r => Some (sync_row ["id"] now (stdpp.option.default ∅ (tables db !! SUBMISSIONS_RESOURCE_NAME) !! k) r)
    | None => stdpp.option.default ∅ (tables db !! SUBMISSIONS_RESOURCE_NAME) !! k
    end.
Proof.
  rewrite submissions_synced_as_df_impl. unfold _sync_without_cleanup, sync_impl. simpl.
  rewrite lookup_insert_eq. simpl. apply sync_table_lookup.
Qed.

(** C4: from any store reachable by syncs and cleanups at earlier times,
    a run of the extractor at a later time leaves every snapshot with
    [CreateDate <= LastModifiedDate <= ] the run's time. *)
Theorem submissions_synced_dates submissions t now db :
  sync_run t db -> (t <= now)%Z ->
  map_Forall (fun _ tbl => dates_ok now tbl) (tables (submissions_synced_as_df submissions now db).2).
Proof.
  intros Hrun Ht. apply sync_run_dates.
  - intros ids now' t' old r Ht' Hold. unfold sync_row.
    destruct old as [s|]; [specialize (Hold s eq_refl); repeat case_match |]; simpl; lia.
  - rewrite submissions_synced_as_df_impl. apply run_cleanup. by apply (run_sync t).
Qed.

(** C3: [CreateDate] is immutable: a stored submission keeps its creation
    date through every later run of the extractor. *)
Theorem submissions_synced_create_date submissions now db tbl k s :
  tables db !! SUBMISSIONS_RESOURCE_NAME = Some tbl -> tbl !! k = Some s ->
  exists s', (tables (submissions_synced_as_df submissions now db).2 !! SUBMISSIONS_RESOURCE_NAME)
               ≫= (lookup k) = Some s' /\ create_date s' = create_date s.
Proof.
  intros Htbl Hk. rewrite submissions_synced_lookup, Htbl. simpl. rewrite Hk.
  destruct (batch_of ["id"] submissions !! k); [| by eexists].
  eexists. split; [done |]. simpl. by repeat case_match.
Qed.

(** C1: running the extractor twice on the same submissions returns the
    same DataFrame the second time and leaves every table as the first run
    left it: on the second run every hash matches. *)
Theorem submissions_synced_idempotent submissions now now' db :
  let '(df1, db1) := submissions_synced_as_df submissions now db in
  let '(df2, db2) := submissions_synced_as_df submissions now' db1 in
  df2 = df1 /\ tables db2 = tables db1.
Proof.
  rewrite !submissions_synced_as_df_impl. unfold _sync_without_cleanup, sync_impl. simpl.
  rewrite lookup_insert_eq. simpl.
  set (tbl1 := sync_table ["id"] now submissions _).
  assert (E : sync_table ["id"] now' submissions tbl1 = tbl1).
  { apply map_eq. intros k. rewrite sync_table_lookup.
    destruct (batch_of ["id"] submissions !! k) as [r|] eqn:Eb; [| done].
    assert (Ek : tbl1 !! k = Some (sync_row ["id"] now (stdpp.option.default ∅
                   (tables db !! SUBMISSIONS_RESOURCE_NAME) !! k) r))
      by (unfold tbl1; by rewrite sync_table_lookup, Eb).
    rewrite Ek. f_equal. set (s1 := sync_row ["id"] now _ r).
    assert (Hh : s_hash s1 = row_hash ["id"] r).
    { unfold s1, sync_row.
      destruct (stdpp.option.default ∅ (tables db !! SUBMISSIONS_RESOURCE_NAME) !! k) as [s|]; [| done].
      destruct (String.eqb_spec (s_hash s) (row_hash ["id"] r)); done. }
    unfold sync_row at 1. cbv beta zeta iota. by rewrite Hh, String.eqb_refl. }
  rewrite E. split; [done |]. by rewrite ?insert_insert_eq.
Qed.

(** C2: each fetched submission is classified against its stored
    snapshot: a new id is inserted with both dates [now]; a changed hash
    overwrites the row and [LastModifiedDate] and keeps [CreateDate]; an
    equal hash leaves the snapshot as it was. *)
Theorem submissions_synced_classifies submissions now db r :
  NoDup (map (row_key ["id"]) submissions) -> r ∈ submissions ->
  let old := stdpp.option.default ∅ (tables db !! SUBMISSIONS_RESOURCE_NAME) !! row_key ["id"] r in
  exists s', (tables (submissions_synced_as_df submissions now db).2 !! SUBMISSIONS_RESOURCE_NAME)
               ≫= (lookup (row_key ["id"] r)) = Some s' /\
    (old = None -> s' = {| s_row := r; s_hash := row_hash ["id"] r; create_date := now;
                           last_modified_date := now |}) /\
    (forall s, old = Some s -> s_hash s <> row_hash ["id"] r ->
       s' = {| s_row := r; s_hash := row_hash ["id"] r; create_date := create_date s;
               last_modified_date := now |}) /\
    (forall s, old = Some s -> s_hash s = row_hash ["id"] r -> s' = s).
Proof.
  intros Hnd Hin old. rewrite submissions_synced_lookup, batch_of_in by done. fold old.
  eexists. split; [done |]. split; [by intros -> |].
  split; intros s -> Hh; simpl.
  - by destruct (String.eqb_spec (s_hash s) (row_hash ["id"] r)).
  - by rewrite Hh, String.eqb_refl.
Qed.

(** C6: after [submissions_synced_as_df] no staging table of the
    Submissions resource remains in the store. *)
Theorem submissions_synced_no_staging submissions now db :
  staging (submissions_synced_as_df submissions now db).2 ∩ staging_tables SUBMISSIONS_RESOURCE_NAME = ∅.
Proof. rewrite submissions_synced_as_df_impl. simpl. set_solver. Qed.

(** C7: the Submissions extractor writes no table of another resource. *)
Theorem submissions_synced_other_tables submissions now db name :
  name <> SUBMISSIONS_RESOURCE_NAME ->
  tables (submissions_synced_as_df submissions now db).2 !! name = tables db !! name.
Proof.
  intros Hne. rewrite submissions_synced_as_df_impl. simpl. by rewrite lookup_insert_ne by congruence.
Qed.
End WithStore.

(** ** Concrete runs against the store of [ResourceSync.v] *)

Section Concrete.
#[local] Existing Instance repr_hasher.

Lemma submissions_synced_idempotent_witness :
  let '(df1, db1) := submissions_synced_as_df batch1 10 empty_db in
  let '(df2, db2) := submissions_synced_as_df batch1 20 db1 in
  df2 = df1 /\ tables db2 = tables db1.
Proof. apply submissions_synced_idempotent. Defined.

Lemma submissions_synced_no_staging_witness :
  staging (submissions_synced_as_df batch1 10 db_after1).2 ∩ staging_tables SUBMISSIONS_RESOURCE_NAME = ∅.
Proof. apply submissions_synced_no_staging. Defined.

Lemma submissions_synced_other_tables_witness :
  tables (submissions_synced_as_df batch1 10 db_after1).2 !! "Assignments" =
  tables db_after1 !! "Assignments".
Proof. apply submissions_synced_other_tables. discriminate. Defined.

(** A section whose first request times out and whose retry succeeds. *)
Definition flaky_section : canvas_section := fun _ k =>
  (Z.of_nat (5 * k), if Nat.eqb k 0 then Err (ApiError "timeout") else Ok batch1).

Example request_submissions_retried :
  request_submissions execute_policy flaky_section = Ok batch1.
Proof. reflexivity. Qed.

Lemma submissions_synced_classifies_witness :
  exists s', (tables (submissions_synced_as_df batch2 20 db_after1).2 !! SUBMISSIONS_RESOURCE_NAME)
               ≫= (lookup (row_key ["id"] (sub_row 1 "85"))) = Some s' /\
    (stdpp.option.default ∅ (tables db_after1 !! SUBMISSIONS_RESOURCE_NAME) !! row_key ["id"] (sub_row 1 "85") = None ->
       s' = {| s_row := sub_row 1 "85"; s_hash := row_hash ["id"] (sub_row 1 "85");
               create_date := 20; last_modified_date := 20 |}) /\
    (forall s, stdpp.option.default ∅ (tables db_after1 !! SUBMISSIONS_RESOURCE_NAME) !! row_key ["id"] (sub_row 1 "85") = Some s ->
       s_hash s <> row_hash ["id"] (sub_row 1 "85") ->
       s' = {| s_row := sub_row 1 "85"; s_hash := row_hash ["id"] (sub_row 1 "85");
               create_date := create_date s; last_modified_date := 20 |}) /\
    (forall s, stdpp.option.default ∅ (tables db_after1 !! SUBMISSIONS_RESOURCE_NAME) !! row_key ["id"] (sub_row 1 "85") = Some s ->
       s_hash s = row_hash ["id"] (sub_row 1 "85") -> s' = s).
Proof. apply submissions_synced_classifies; decide_holds. Defined.

Lemma submissions_synced_create_date_witness :
  exists s', (tables (submissions_synced_as_df batch2 20 db_after1).2 !! SUBMISSIONS_RESOURCE_NAME)
               ≫= (lookup [JInt 1]) = Some s' /\ create_date s' = 10%Z.
Proof.
  apply (submissions_synced_create_date batch2 20 db_after1 (sync_table ["id"] 10 batch1 ∅) [JInt 1]
           {| s_row := sub_row 1 "80"; s_hash := row_hash ["id"] (sub_row 1 "80");
              create_date := 10; last_modified_date := 10 |}); vm_compute; reflexivity.
Defined.

Lemma submissions_synced_dates_witness :
  map_Forall (fun _ tbl => dates_ok 20 tbl) (tables (submissions_synced_as_df batch2 20 db_after1).2).
Proof.
  apply (submissions_synced_dates batch2 10); [| lia].
  apply (run_sync 0 10); [apply run_empty | lia].
Defined.

Lemma submissions_synced_keeps_absent_witness :
  (tables (submissions_synced_as_df [sub_row 3 "70"] 20 db_after1).2 !! SUBMISSIONS_RESOURCE_NAME)
    ≫= (lookup [JInt 1]) =
  stdpp.option.default ∅ (tables db_after1 !! SUBMISSIONS_RESOURCE_NAME) !! [JInt 1].
Proof. apply submissions_synced_keeps_absent. decide_holds. Defined.
End Concrete.

(** ** The implementation meets the interface

    The laws of [ResourceSyncLaws] hold of [sync_impl] and [cleanup_impl]:
    the store of [ResourceSync.v] refines the contract the extractors are
    written against. *)

Section Laws.
Context `{Hasher}.

Lemma sync_row_hash ids now old r : s_hash (sync_row ids now old r) = row_hash ids r.
Proof.
  unfold sync_row. destruct old as [s|]; [| done].
  by destruct (String.eqb_spec (s_hash s) (row_hash ids r)).
Qed.

Lemma sync_table_idempotent ids now now' df tbl :
  sync_table ids now' df (sync_table ids now df tbl) = sync_table ids now df tbl.
Proof.
  apply map_eq. intros k. rewrite (sync_table_lookup _ _ _ (sync_table _ _ _ _)).
  destruct (batch_of ids df !! k) as [r|] eqn:Eb; [| done].
  rewrite sync_table_lookup, Eb. f_equal. unfold sync_row at 1. cbv beta zeta iota.
  by rewrite sync_row_hash, String.eqb_refl.
Qed.
End Laws.

#[export] Instance resource_sync_impl_laws `{Hasher} : ResourceSyncLaws.
Proof.
  split.
  - done.
  - done.
  - intros df ids name now db name' Hne. simpl. by rewrite lookup_insert_ne.
  - intros df ids name now db db' E. simpl. by rewrite E.
  - intros df ids name now now' db. simpl. rewrite lookup_insert_eq. simpl.
    rewrite sync_table_idempotent. by rewrite insert_insert_eq.
Qed.
