(* ===== verification/Harmonizer.v ===== *)
(** * The identity harmonizer

    The harmonizer is a set of stored procedures of the LMS data store,
    run in a fixed order by [run_harmonizer]; its SQL is part of the
    repository but not of the staged sources, and its behaviour is pinned
    down by the spec (§3, §4.3) and by the integration tests under
    [src/src/lms-harmonizer/tests_integration_sql/procs/mssql/], which are
    modelled as scenarios in [HarmonizerTests.v].

    The store is a record of tables.  LMS tables are finite maps from the
    table's identity column to its row; the Ed-Fi student e-mail table is a
    list, because the first matching row wins.  The derived tables
    [lmsx.Assignment] and [lmsx.AssignmentSubmission] are keyed by the
    identity of the LMS row they derive from.

    The passes are
    - [harmonize_lms_users]: fill [LMSUser.EdFiStudentId] of undeleted users
      without a link from the first student e-mail equal to the user's;
    - [harmonize_lms_sections]: fill [LMSSection.EdFiSectionId] from the
      Ed-Fi section with the same section identifier;
    - [harmonize_assignments]: delete derived assignments that are no longer
      eligible (with their derived submissions), then insert or update the
      eligible ones;
    - [harmonize_assignment_submissions]: the same for submissions, whose
      parent must be present in the derived assignment table. *)

From S2P Require Import Prelude.

Record LMSUser := {
  user_source_system_identifier : string;
  user_email : string;
  user_source_system : string;
  user_deleted : bool;
  EdFiStudentId : option string
}.

Record EdFiStudent := { StudentUSI : nat; student_id : string }.
Record StudentElectronicMail := { mail_usi : nat; ElectronicMailAddress : string }.

Record LMSSection := {
  SISSectionIdentifier : string;
  section_source_system : string;
  section_deleted : bool;
  EdFiSectionId : option string
}.

Record EdFiSection := { edfi_section_id : string; SectionIdentifier : string }.

Record Assignment := {
  assignment_source_system_identifier : string;
  assignment_source_system : string;
  assignment_section : nat;
  Title : string;
  AssignmentCategory : string;
  assignment_last_modified : time;
  assignment_deleted : bool
}.

Record AssignmentSubmission := {
  submission_source_system_identifier : string;
  submission_assignment : nat;
  submission_user : nat;
  SubmissionStatus : string;
  Grade : string;
  submission_source_system : string;
  submission_deleted : bool
}.

Record Descriptor := { Namespace : string; CodeValue : string }.

(** Rows of the derived layer. *)
Record LmsxAssignment := {
  x_title : string;
  x_section_id : string;
  x_category_descriptor : nat;
  x_source_system_descriptor : nat
}.

Record LmsxSubmission := {
  xs_assignment : nat;
  xs_student_id : string;
  xs_status_descriptor : nat;
  xs_grade : string
}.

Record store := {
  lms_users : gmap nat LMSUser;
  edfi_students : list EdFiStudent;
  student_mails : list StudentElectronicMail;
  lms_sections : gmap nat LMSSection;
  edfi_sections : list EdFiSection;
  lms_assignments : gmap nat Assignment;
  lms_submissions : gmap nat AssignmentSubmission;
  descriptors : gmap nat Descriptor;
  category_descriptors : gset nat;
  source_system_descriptors : gset nat;
  status_descriptors : gset nat;
  lmsx_assignments : gmap nat LmsxAssignment;
  lmsx_submissions : gmap nat LmsxSubmission
}.

(** ** Lookups *)

(** The first student e-mail row equal to [email], and its student's Id. *)
Definition match_student_email (db : store) (email : string) : option string :=
  m ← list_find (fun m => ElectronicMailAddress m = email) (student_mails db);
  s ← list_find (fun s => StudentUSI s = mail_usi m.2) (edfi_students db);
  Some (student_id s.2).

Definition match_section (db : store) (sis_id : string) : option string :=
  s ← list_find (fun s => SectionIdentifier s = sis_id) (edfi_sections db);
  Some (edfi_section_id s.2).

(** The descriptor of a kind with a code value. *)
Definition descriptor_id (kind : gset nat) (code : string) (db : store) : option nat :=
  p ← list_find (fun p => p.1 ∈ kind /\ CodeValue p.2 = code) (map_to_list (descriptors db));
  Some p.2.1.

(** ** Table updates *)

Definition set_lms_users (db : store) (us : gmap nat LMSUser) : store :=
  {| lms_users := us;
     edfi_students := edfi_students db; student_mails := student_mails db;
     lms_sections := lms_sections db; edfi_sections := edfi_sections db;
     lms_assignments := lms_assignments db; lms_submissions := lms_submissions db;
     descriptors := descriptors db; category_descriptors := category_descriptors db;
     source_system_descriptors := source_system_descriptors db;
     status_descriptors := status_descriptors db;
     lmsx_assignments := lmsx_assignments db; lmsx_submissions := lmsx_submissions db |}.

Definition set_lms_sections (db : store) (ss : gmap nat LMSSection) : store :=
  {| lms_users := lms_users db;
     edfi_students := edfi_students db; student_mails := student_mails db;
     lms_sections := ss; edfi_sections := edfi_sections db;
     lms_assignments := lms_assignments db; lms_submissions := lms_submissions db;
     descriptors := descriptors db; category_descriptors := category_descriptors db;
     source_system_descriptors := source_system_descriptors db;
     status_descriptors := status_descriptors db;
     lmsx_assignments := lmsx_assignments db; lmsx_submissions := lmsx_submissions db |}.

Definition set_lmsx (db : store) (xa : gmap nat LmsxAssignment) (xs : gmap nat LmsxSubmission) : store :=
  {| lms_users := lms_users db;
     edfi_students := edfi_students db; student_mails := student_mails db;
     lms_sections := lms_sections db; edfi_sections := edfi_sections db;
     lms_assignments := lms_assignments db; lms_submissions := lms_submissions db;
     descriptors := descriptors db; category_descriptors := category_descriptors db;
     source_system_descriptors := source_system_descriptors db;
     status_descriptors := status_descriptors db;
     lmsx_assignments := xa; lmsx_submissions := xs |}.

(** ** Link passes *)

Definition link_user (db : store) (u : LMSUser) : LMSUser :=
  if user_deleted u then u else
  match EdFiStudentId u with
  | Some _ => u
  | None => {| user_source_system_identifier := user_source_system_identifier u;
               user_email := user_email u; user_source_system := user_source_system u;
               user_deleted := false; EdFiStudentId := match_student_email db (user_email u) |}
  end.

Definition harmonize_lms_users (db : store) : store :=
  set_lms_users db (link_user db <$> lms_users db).

Definition link_section (db : store) (s : LMSSection) : LMSSection :=
  if section_deleted s then s else
  match EdFiSectionId s with
  | Some _ => s
  | None => {| SISSectionIdentifier := SISSectionIdentifier s;
               section_source_system := section_source_system s;
               section_deleted := false; EdFiSectionId := match_section db (SISSectionIdentifier s) |}
  end.

Definition harmonize_lms_sections (db : store) : store :=
  set_lms_sections db (link_section db <$> lms_sections db).

(** ** Reconciliation of a derived table

    The SQL of both derived tables has the same shape: delete the derived
    rows whose source row is no longer eligible, then insert the eligible
    rows that are missing and update those that differ.  [proj k v] is the
    derived row of source row [v] with identity [k], [None] when [v] is not
    eligible. *)

Section Reconcile.
Context {V X : Type} `{EqDecision X} (proj : nat -> V -> option X).

Definition delete_stale (src : gmap nat V) (dst : gmap nat X) : gmap nat X :=
  filter (fun kx => is_Some (src !! kx.1 ≫= proj kx.1)) dst.

Definition upsert_eligible (src : gmap nat V) (dst : gmap nat X) : gmap nat X :=
  map_fold (fun k v acc =>
              match proj k v with
              | Some x => if decide (acc !! k = Some x) then acc else <[k := x]> acc
              | None => acc
              end) dst src.

Definition reconcile_derived (src : gmap nat V) (dst : gmap nat X) : gmap nat X :=
  upsert_eligible src (delete_stale src dst).

Lemma upsert_eligible_lookup src dst k :
  upsert_eligible src dst !! k =
    match src !! k ≫= proj k with Some x => Some x | None => dst !! k end.
Proof.
  unfold upsert_eligible. revert k.
  apply (map_fold_weak_ind (fun r m => forall k, r !! k =
    match m !! k ≫= proj k with Some x => Some x | None => dst !! k end)).
  - intros k. by rewrite lookup_empty.
  - intros i v m r Hi IH k.
    destruct (decide (k = i)) as [->|Hne].
    + rewrite lookup_insert_eq. simpl.
      destruct (proj i v) as [x|] eqn:E; [| by rewrite IH, Hi].
      case_decide; [done | by rewrite lookup_insert_eq].
    + rewrite lookup_insert_ne by done. rewrite <- IH.
      destruct (proj i v); [case_decide; [done | by rewrite lookup_insert_ne] | done].
Qed.

(** Refinement: whatever the derived table held before, reconciling it
    yields exactly the derived rows of the eligible source rows. *)
Lemma reconcile_derived_spec src dst :
  reconcile_derived src dst = map_imap proj src.
Proof.
  apply map_eq. intros k. unfold reconcile_derived.
  rewrite upsert_eligible_lookup, map_lookup_imap.
  destruct (src !! k ≫= proj k) as [x|] eqn:E; [done |].
  unfold delete_stale. rewrite map_lookup_filter.
  destruct (dst !! k); simpl; [| done].
  case_guard as Hg; [exfalso | done]. simpl in Hg. rewrite E in Hg. by destruct Hg.
Qed.
End Reconcile.

#[export] Instance LmsxAssignment_eq_dec : EqDecision LmsxAssignment.
Proof. solve_decision. Defined.
#[export] Instance LmsxSubmission_eq_dec : EqDecision LmsxSubmission.
Proof. solve_decision. Defined.

(** ** Derived-table passes *)

(** An assignment reaches [lmsx.Assignment] when it is not deleted, its
    section is not deleted and is linked to an Ed-Fi section, and its
    category and source-system descriptors exist. *)
Definition assignment_projection (db : store) (k : nat) (a : Assignment) : option LmsxAssignment :=
  if assignment_deleted a then None else
  s ← lms_sections db !! assignment_section a;
  if section_deleted s then None else
  sid ← EdFiSectionId s;
  cat ← descriptor_id (category_descriptors db) (AssignmentCategory a) db;
  ss ← descriptor_id (source_system_descriptors db) (assignment_source_system a) db;
  Some {| x_title := Title a; x_section_id := sid;
          x_category_descriptor := cat; x_source_system_descriptor := ss |}.

(** A submission reaches [lmsx.AssignmentSubmission] when it is not
    deleted, its assignment is in [lmsx.Assignment], its user is linked to
    an Ed-Fi student, and its status descriptor exists. *)
Definition submission_projection (db : store) (k : nat) (s : AssignmentSubmission) :
    option LmsxSubmission :=
  if submission_deleted s then None else
  _ ← lmsx_assignments db !! submission_assignment s;
  u ← lms_users db !! submission_user s;
  st ← EdFiStudentId u;
  status ← descriptor_id (status_descriptors db) (SubmissionStatus s) db;
  Some {| xs_assignment := submission_assignment s; xs_student_id := st;
          xs_status_descriptor := status; xs_grade := Grade s |}.

(** Deleting a derived assignment deletes the derived submissions that
    reference it, which the foreign key of [lmsx.AssignmentSubmission]
    requires. *)
Definition harmonize_assignments (db : store) : store :=
  let xa := reconcile_derived (assignment_projection db) (lms_assignments db) (lmsx_assignments db) in
  set_lmsx db xa (filter (fun kx => is_Some (xa !! xs_assignment kx.2)) (lmsx_submissions db)).

Definition harmonize_assignment_submissions (db : store) : store :=
  set_lmsx db (lmsx_assignments db)
    (reconcile_derived (submission_projection db) (lms_submissions db) (lmsx_submissions db)).

(** The link passes, users then sections. *)
Definition harmonize_links (db : store) : store :=
  harmonize_lms_sections (harmonize_lms_users db).

(** [run_harmonizer]: the passes in dependency order. *)
Definition run_harmonizer (db : store) : store :=
  harmonize_assignment_submissions (harmonize_assignments (harmonize_links db)).

(** ** Abstract specification of a harmonized store

    The derived layer is a function of the linked LMS tables: the
    projections of the eligible assignments, and of the eligible
    submissions against those assignments. *)
Definition harmonized_assignments (db : store) : gmap nat LmsxAssignment :=
  map_imap (assignment_projection (harmonize_links db)) (lms_assignments db).

Definition harmonized_submissions (db : store) : gmap nat LmsxSubmission :=
  map_imap (submission_projection (set_lmsx (harmonize_links db) (harmonized_assignments db) ∅))
    (lms_submissions db).

(** ** Structural lemmas *)

Lemma set_lmsx_set_lmsx db xa xs xa' xs' :
  set_lmsx (set_lmsx db xa xs) xa' xs' = set_lmsx db xa' xs'.
Proof. reflexivity. Qed.

Lemma submission_projection_set_lmsx db xa xs xs' :
  submission_projection (set_lmsx db xa xs) = submission_projection (set_lmsx db xa xs').
Proof. reflexivity. Qed.

(** The run is the linked store with the specified derived layer. *)
Lemma run_harmonizer_eq db :
  run_harmonizer db =
    set_lmsx (harmonize_links db) (harmonized_assignments db) (harmonized_submissions db).
Proof.
  unfold run_harmonizer, harmonize_assignment_submissions, harmonize_assignments.
  rewrite set_lmsx_set_lmsx. simpl.
  rewrite !reconcile_derived_spec. unfold harmonized_submissions.
  by erewrite submission_projection_set_lmsx.
Qed.

Lemma link_user_idempotent db u : link_user db (link_user db u) = link_user db u.
Proof.
  unfold link_user. destruct (user_deleted u) eqn:Hd; [by rewrite Hd |].
  destruct (EdFiStudentId u) eqn:Hl; [by rewrite Hd, Hl |]. simpl.
  by destruct (match_student_email db (user_email u)).
Qed.

Lemma link_section_idempotent db s : link_section db (link_section db s) = link_section db s.
Proof.
  unfold link_section. destruct (section_deleted s) eqn:Hd; [by rewrite Hd |].
  destruct (EdFiSectionId s) eqn:Hl; [by rewrite Hd, Hl |]. simpl.
  by destruct (match_section db (SISSectionIdentifier s)).
Qed.

(** A pointwise idempotent map of a table is idempotent on the table. *)
Lemma fmap_idempotent {A} (f : A -> A) (m : gmap nat A) :
  (forall x, f (f x) = f x) -> f <$> (f <$> m) = f <$> m.
Proof.
  intros Hf. apply map_eq. intros k. rewrite !lookup_fmap.
  destruct (m !! k); simpl; [by rewrite Hf | done].
Qed.

Lemma harmonize_links_idempotent db : harmonize_links (harmonize_links db) = harmonize_links db.
Proof.
  unfold harmonize_links, harmonize_lms_sections, harmonize_lms_users. simpl.
  rewrite (fmap_idempotent (link_user db)) by apply link_user_idempotent.
  rewrite (fmap_idempotent (link_section (set_lms_users db (link_user db <$> lms_users db))))
    by apply link_section_idempotent.
  reflexivity.
Qed.

Lemma harmonize_links_set_lmsx db xa xs :
  harmonize_links (set_lmsx db xa xs) = set_lmsx (harmonize_links db) xa xs.
Proof. reflexivity. Qed.

Lemma harmonized_set_lmsx db xa xs :
  harmonized_assignments (set_lmsx db xa xs) = harmonized_assignments db /\
  harmonized_submissions (set_lmsx db xa xs) = harmonized_submissions db.
Proof. split; reflexivity. Qed.

Lemma harmonized_links db :
  harmonized_assignments (harmonize_links db) = harmonized_assignments db /\
  harmonized_submissions (harmonize_links db) = harmonized_submissions db.
Proof.
  unfold harmonized_submissions, harmonized_assignments.
  rewrite harmonize_links_idempotent. split; reflexivity.
Qed.

Lemma link_section_deleted db s : section_deleted (link_section db s) = section_deleted s.
Proof. unfold link_section. destruct (section_deleted s) eqn:E; [done |]. by destruct (EdFiSectionId s). Qed.

Lemma harmonized_assignments_lookup db k :
  harmonized_assignments db !! k = lms_assignments db !! k ≫= assignment_projection (harmonize_links db) k.
Proof. apply map_lookup_imap. Qed.

Lemma submission_projection_Some db k s x :
  submission_projection db k s = Some x ->
  submission_deleted s = false /\ xs_assignment x = submission_assignment s /\
  is_Some (lmsx_assignments db !! submission_assignment s).
Proof.
  unfold submission_projection. destruct (submission_deleted s); [done |].
  destruct (lmsx_assignments db !! submission_assignment s) eqn:E; simpl; [| done].
  destruct_binds; try done. intros [= <-]. simpl. eauto.
Qed.

(** Every derived submission of the specification has its parent in the
    derived assignments, and comes from an undeleted submission. *)
Lemma harmonized_submissions_lookup_Some db j x :
  harmonized_submissions db !! j = Some x ->
  exists s, lms_submissions db !! j = Some s /\ submission_deleted s = false /\
            xs_assignment x = submission_assignment s /\
            is_Some (harmonized_assignments db !! xs_assignment x).
Proof.
  unfold harmonized_submissions. rewrite map_lookup_imap.
  destruct (lms_submissions db !! j) as [s|]; [| done]. intros Hx.
  apply (submission_projection_Some _ j) in Hx.
  destruct Hx as (Hd & Ha & Hp). exists s. rewrite Ha. repeat split; [done | exact Hp].
Qed.

Lemma assignment_projection_deleted_section db k a s :
  lms_sections db !! assignment_section a = Some s -> section_deleted s = true ->
  assignment_projection (harmonize_links db) k a = None.
Proof.
  intros Hs Hd. unfold assignment_projection. destruct (assignment_deleted a); [done |].
  simpl. rewrite lookup_fmap, Hs. simpl. by rewrite link_section_deleted, Hd.
Qed.

Lemma run_harmonizer_lms_tables db :
  lms_users (run_harmonizer db) = link_user db <$> lms_users db /\
  lms_sections (run_harmonizer db) = link_section (harmonize_lms_users db) <$> lms_sections db /\
  lms_assignments (run_harmonizer db) = lms_assignments db /\
  lms_submissions (run_harmonizer db) = lms_submissions db.
Proof. rewrite run_harmonizer_eq. repeat split. Qed.

Lemma link_user_kept db u : user_deleted u = true \/ is_Some (EdFiStudentId u) -> link_user db u = u.
Proof. unfold link_user. intros [->|[v ->]]; [done |]. by destruct (user_deleted u). Qed.

Lemma link_section_kept db s : is_Some (EdFiSectionId s) -> link_section db s = s.
Proof. unfold link_section. intros [v ->]. by destruct (section_deleted s). Qed.

(** ** Properties of a harmonizer run *)

(** Refinement: whatever the derived tables held before, a run leaves
    the linked LMS tables and exactly the derived rows of the
    specification. *)
Theorem run_harmonizer_refines db xa xs :
  run_harmonizer (set_lmsx db xa xs) =
    set_lmsx (harmonize_links db) (harmonized_assignments db) (harmonized_submissions db).
Proof. rewrite run_harmonizer_eq, harmonize_links_set_lmsx. by destruct (harmonized_set_lmsx db xa xs) as [-> ->]. Qed.

(** A second run changes nothing. *)
Theorem run_harmonizer_idempotent db : run_harmonizer (run_harmonizer db) = run_harmonizer db.
Proof.
  rewrite (run_harmonizer_eq (run_harmonizer db)), run_harmonizer_eq.
  rewrite harmonize_links_set_lmsx, harmonize_links_idempotent.
  destruct (harmonized_set_lmsx (harmonize_links db) (harmonized_assignments db) (harmonized_submissions db))
    as [-> ->].
  by destruct (harmonized_links db) as [-> ->].
Qed.

(** Soft-delete cascade from sections: no assignment of a deleted
    section is in [lmsx.Assignment] after a run, even if it was before. *)
Theorem run_harmonizer_section_cascade db sid s k a :
  lms_sections db !! sid = Some s -> section_deleted s = true ->
  lms_assignments db !! k = Some a -> assignment_section a = sid ->
  lmsx_assignments (run_harmonizer db) !! k = None.
Proof.
  intros Hs Hd Ha <-. rewrite run_harmonizer_eq. simpl.
  rewrite harmonized_assignments_lookup, Ha. simpl.
  eapply assignment_projection_deleted_section; [| exact Hd].
  unfold harmonize_lms_users, set_lms_users. exact Hs.
Qed.

(** Soft-delete cascade from assignments: after a run, no derived
    submission references a deleted assignment, even one derived by an
    earlier run. *)
Theorem run_harmonizer_deleted_assignment db k a j x :
  lms_assignments db !! k = Some a -> assignment_deleted a = true ->
  lmsx_submissions (run_harmonizer db) !! j = Some x -> xs_assignment x <> k.
Proof.
  intros Ha Hd. rewrite run_harmonizer_eq. simpl. intros (s & _ & _ & _ & Hp)%harmonized_submissions_lookup_Some.
  intros Hk. rewrite Hk, harmonized_assignments_lookup, Ha in Hp. simpl in Hp.
  unfold assignment_projection in Hp. rewrite Hd in Hp. by destruct Hp.
Qed.

(** Referential integrity: after a run every derived submission's
    assignment is a derived assignment. *)
Theorem run_harmonizer_fk db j x :
  lmsx_submissions (run_harmonizer db) !! j = Some x ->
  is_Some (lmsx_assignments (run_harmonizer db) !! xs_assignment x).
Proof.
  rewrite run_harmonizer_eq. simpl.
  intros (s & _ & _ & _ & Hp)%harmonized_submissions_lookup_Some. exact Hp.
Qed.

(** The assignment pass alone already restores referential
    integrity, from any store: a run interrupted after it leaves no
    dangling derived submission. *)
Theorem harmonize_assignments_fk db j x :
  lmsx_submissions (harmonize_assignments db) !! j = Some x ->
  is_Some (lmsx_assignments (harmonize_assignments db) !! xs_assignment x).
Proof. simpl. intros (_ & Hp)%map_lookup_filter_Some. exact Hp. Qed.

(** A soft-deleted LMS user without a link is never linked, even
    when its e-mail matches a student. *)
Theorem run_harmonizer_deleted_user db k u :
  lms_users db !! k = Some u -> user_deleted u = true ->
  lms_users (run_harmonizer db) !! k = Some u.
Proof.
  intros Hu Hd. destruct (run_harmonizer_lms_tables db) as (-> & _).
  rewrite lookup_fmap, Hu. simpl. by rewrite link_user_kept by auto.
Qed.

(** An undeleted, unlinked LMS user whose e-mail equals a student
    e-mail row is linked to the student of the first such row. *)
Theorem run_harmonizer_links_email db k u i m p :
  lms_users db !! k = Some u -> user_deleted u = false -> EdFiStudentId u = None ->
  student_mails db !! i = Some m -> ElectronicMailAddress m = user_email u ->
  (forall i' m', i' < i -> student_mails db !! i' = Some m' -> ElectronicMailAddress m' <> user_email u) ->
  list_find (fun s => StudentUSI s = mail_usi m) (edfi_students db) = Some p ->
  (lms_users (run_harmonizer db) !! k) ≫= EdFiStudentId = Some (student_id p.2).
Proof.
  intros Hu Hd Hl Hi Hm Hfirst Hp. destruct (run_harmonizer_lms_tables db) as (-> & _).
  rewrite lookup_fmap, Hu. simpl. unfold link_user. rewrite Hd, Hl. simpl.
  unfold match_student_email.
  rewrite (proj2 (list_find_Some _ _ i m)); [simpl; by rewrite Hp |].
  split; [done | split; [done |]]. intros j y Hj Hlt. by apply (Hfirst j y).
Qed.

(** Harmonization writes only links and the derived layer: LMS
    assignments and submissions are unchanged, and existing user and
    section links are kept. *)
Theorem run_harmonizer_preserves_sources db :
  lms_assignments (run_harmonizer db) = lms_assignments db /\
  lms_submissions (run_harmonizer db) = lms_submissions db /\
  (forall k u, lms_users db !! k = Some u -> is_Some (EdFiStudentId u) ->
     lms_users (run_harmonizer db) !! k = Some u) /\
  (forall k s, lms_sections db !! k = Some s -> is_Some (EdFiSectionId s) ->
     lms_sections (run_harmonizer db) !! k = Some s).
Proof.
  destruct (run_harmonizer_lms_tables db) as (Hu & Hs & Ha & Hsub).
  split; [done | split; [done |]]. rewrite Hu, Hs. split.
  - intros k u Hk Hl. rewrite lookup_fmap, Hk. simpl. by rewrite link_user_kept by auto.
  - intros k s Hk Hl. rewrite lookup_fmap, Hk. simpl. by rewrite link_section_kept.
Qed.
