(* ===== verification/HarmonizerTests.v ===== *)
(** * The harmonizer's integration tests as scenarios

    Each [describe_*] block of the three test files under
    [src/src/lms-harmonizer/tests_integration_sql/procs/mssql/] arranges
    rows with the helpers of [tests_integration_sql.mssql_loader] and a few
    inline SQL updates, calls [run_harmonizer] (once or twice), and asserts
    on the LMS or derived tables.  Here each arrangement is a [store] built
    by the same sequence of inserts, and each assertion is a theorem about
    [run_harmonizer] of [Harmonizer.v], proved by evaluation.

    The loader helpers are not part of the staged sources; they insert one
    row, with SQL identity columns numbered from 1 as in a fresh test
    database. *)

From S2P Require Import Prelude Harmonizer.
From stdpp Require Import pretty.

(** ** Table setters *)

Definition update_edfi_students (db : store) (v : list EdFiStudent) : store :=
  {| lms_users := lms_users db;
     edfi_students := v;
     student_mails := student_mails db;
     lms_sections := lms_sections db;
     edfi_sections := edfi_sections db;
     lms_assignments := lms_assignments db;
     lms_submissions := lms_submissions db;
     descriptors := descriptors db;
     category_descriptors := category_descriptors db;
     source_system_descriptors := source_system_descriptors db;
     status_descriptors := status_descriptors db;
     lmsx_assignments := lmsx_assignments db;
     lmsx_submissions := lmsx_submissions db |}.

Definition update_student_mails (db : store) (v : list StudentElectronicMail) : store :=
  {| lms_users := lms_users db;
     edfi_students := edfi_students db;
     student_mails := v;
     lms_sections := lms_sections db;
     edfi_sections := edfi_sections db;
     lms_assignments := lms_assignments db;
     lms_submissions := lms_submissions db;
     descriptors := descriptors db;
     category_descriptors := category_descriptors db;
     source_system_descriptors := source_system_descriptors db;
     status_descriptors := status_descriptors db;
     lmsx_assignments := lmsx_assignments db;
     lmsx_submissions := lmsx_submissions db |}.

Definition update_edfi_sections (db : store) (v : list EdFiSection) : store :=
  {| lms_users := lms_users db;
     edfi_students := edfi_students db;
     student_mails := student_mails db;
     lms_sections := lms_sections db;
     edfi_sections := v;
     lms_assignments := lms_assignments db;
     lms_submissions := lms_submissions db;
     descriptors := descriptors db;
     category_descriptors := category_descriptors db;
     source_system_descriptors := source_system_descriptors db;
     status_descriptors := status_descriptors db;
     lmsx_assignments := lmsx_assignments db;
     lmsx_submissions := lmsx_submissions db |}.

Definition update_lms_assignments (db : store) (v : gmap nat Assignment) : store :=
  {| lms_users := lms_users db;
     edfi_students := edfi_students db;
     student_mails := student_mails db;
     lms_sections := lms_sections db;
     edfi_sections := edfi_sections db;
     lms_assignments := v;
     lms_submissions := lms_submissions db;
     descriptors := descriptors db;
     category_descriptors := category_descriptors db;
     source_system_descriptors := source_system_descriptors db;
     status_descriptors := status_descriptors db;
     lmsx_assignments := lmsx_assignments db;
     lmsx_submissions := lmsx_submissions db |}.

Definition update_lms_submissions (db : store) (v : gmap nat AssignmentSubmission) : store :=
  {| lms_users := lms_users db;
     edfi_students := edfi_students db;
     student_mails := student_mails db;
     lms_sections := lms_sections db;
     edfi_sections := edfi_sections db;
     lms_assignments := lms_assignments db;
     lms_submissions := v;
     descriptors := descriptors db;
     category_descriptors := category_descriptors db;
     source_system_descriptors := source_system_descriptors db;
     status_descriptors := status_descriptors db;
     lmsx_assignments := lmsx_assignments db;
     lmsx_submissions := lmsx_submissions db |}.

Definition update_descriptors (db : store) (v : gmap nat Descriptor) : store :=
  {| lms_users := lms_users db;
     edfi_students := edfi_students db;
     student_mails := student_mails db;
     lms_sections := lms_sections db;
     edfi_sections := edfi_sections db;
     lms_assignments := lms_assignments db;
     lms_submissions := lms_submissions db;
     descriptors := v;
     category_descriptors := category_descriptors db;
     source_system_descriptors := source_system_descriptors db;
     status_descriptors := status_descriptors db;
     lmsx_assignments := lmsx_assignments db;
     lmsx_submissions := lmsx_submissions db |}.

Definition update_category_descriptors (db : store) (v : gset nat) : store :=
  {| lms_users := lms_users db;
     edfi_students := edfi_students db;
     student_mails := student_mails db;
     lms_sections := lms_sections db;
     edfi_sections := edfi_sections db;
     lms_assignments := lms_assignments db;
     lms_submissions := lms_submissions db;
     descriptors := descriptors db;
     category_descriptors := v;
     source_system_descriptors := source_system_descriptors db;
     status_descriptors := status_descriptors db;
     lmsx_assignments := lmsx_assignments db;
     lmsx_submissions := lmsx_submissions db |}.

Definition update_source_system_descriptors (db : store) (v : gset nat) : store :=
  {| lms_users := lms_users db;
     edfi_students := edfi_students db;
     student_mails := student_mails db;
     lms_sections := lms_sections db;
     edfi_sections := edfi_sections db;
     lms_assignments := lms_assignments db;
     lms_submissions := lms_submissions db;
     descriptors := descriptors db;
     category_descriptors := category_descriptors db;
     source_system_descriptors := v;
     status_descriptors := status_descriptors db;
     lmsx_assignments := lmsx_assignments db;
     lmsx_submissions := lmsx_submissions db |}.

Definition update_status_descriptors (db : store) (v : gset nat) : store :=
  {| lms_users := lms_users db;
     edfi_students := edfi_students db;
     student_mails := student_mails db;
     lms_sections := lms_sections db;
     edfi_sections := edfi_sections db;
     lms_assignments := lms_assignments db;
     lms_submissions := lms_submissions db;
     descriptors := descriptors db;
     category_descriptors := category_descriptors db;
     source_system_descriptors := source_system_descriptors db;
     status_descriptors := v;
     lmsx_assignments := lmsx_assignments db;
     lmsx_submissions := lmsx_submissions db |}.

(** ** The loader helpers of [tests_integration_sql.mssql_loader] *)

Definition empty_store : store := {|
  lms_users := ∅; edfi_students := []; student_mails := []; lms_sections := ∅;
  edfi_sections := []; lms_assignments := ∅; lms_submissions := ∅; descriptors := ∅;
  category_descriptors := ∅; source_system_descriptors := ∅; status_descriptors := ∅;
  lmsx_assignments := ∅; lmsx_submissions := ∅ |}.

(** The next value of an identity column. *)
Definition next_identity {A} (m : gmap nat A) : nat := S (set_fold Nat.max 0 (dom m)).

Definition lms_user_row (sis_id email source_system : string) (deleted : bool) : LMSUser :=
  {| user_source_system_identifier := sis_id; user_email := email;
     user_source_system := source_system; user_deleted := deleted; EdFiStudentId := None |}.

Definition insert_lms_user (sis_id email source_system : string) (db : store) : store :=
  set_lms_users db (<[next_identity (lms_users db) := lms_user_row sis_id email source_system false]>
                      (lms_users db)).

Definition insert_lms_user_deleted (sis_id email source_system : string) (db : store) : store :=
  set_lms_users db (<[next_identity (lms_users db) := lms_user_row sis_id email source_system true]>
                      (lms_users db)).

(** The Ed-Fi student Id the loader generates when none is given. *)
Definition default_student_id (usi : nat) : string := "guid-" +:+ pretty usi.

Definition insert_edfi_student_with_usi (usi : nat) (id : string) (db : store) : store :=
  update_edfi_students db (edfi_students db ++ [{| StudentUSI := usi; student_id := id |}]).

Definition insert_edfi_student (student_unique_id : string) (db : store) : store :=
  let usi := S (length (edfi_students db)) in
  insert_edfi_student_with_usi usi (default_student_id usi) db.

Definition insert_edfi_student_electronic_mail (usi : nat) (email : string) (db : store) : store :=
  update_student_mails db (student_mails db ++ [{| mail_usi := usi; ElectronicMailAddress := email |}]).

Definition insert_lms_section (sis_id source_system : string) (db : store) : store :=
  set_lms_sections db (<[next_identity (lms_sections db) :=
    {| SISSectionIdentifier := sis_id; section_source_system := source_system;
       section_deleted := false; EdFiSectionId := None |}]> (lms_sections db)).

Definition insert_edfi_section (section_identifier : string) (db : store) : store :=
  update_edfi_sections db (edfi_sections db ++
    [{| edfi_section_id := "section-guid-" +:+ pretty (S (length (edfi_sections db)));
        SectionIdentifier := section_identifier |}]).

Definition insert_descriptor (namespace code_value : string) (db : store) : store :=
  update_descriptors db (<[next_identity (descriptors db) :=
    {| Namespace := namespace; CodeValue := code_value |}]> (descriptors db)).

Definition insert_lmsx_assignmentcategory_descriptor (id : nat) (db : store) : store :=
  update_category_descriptors db ({[id]} ∪ category_descriptors db).

Definition insert_lmsx_sourcesystem_descriptor (id : nat) (db : store) : store :=
  update_source_system_descriptors db ({[id]} ∪ source_system_descriptors db).

Definition insert_lmsx_assignmentsubmissionstatus_descriptor (id : nat) (db : store) : store :=
  update_status_descriptors db ({[id]} ∪ status_descriptors db).

Definition insert_lms_assignment (source_system_identifier source_system : string)
    (section_identifier : nat) (category : string) (db : store) : store :=
  update_lms_assignments db (<[next_identity (lms_assignments db) :=
    {| assignment_source_system_identifier := source_system_identifier;
       assignment_source_system := source_system; assignment_section := section_identifier;
       Title := source_system_identifier; AssignmentCategory := category;
       assignment_last_modified := 0; assignment_deleted := false |}]> (lms_assignments db)).

(** The grade of a new submission is 0 (comment of the update test). *)
Definition insert_lms_assignment_submissions (id : nat) (source_system_identifier : string)
    (assignment_identifier user_identifier : nat) (status source_system : string)
    (deleted : bool) (db : store) : store :=
  update_lms_submissions db (<[id :=
    {| submission_source_system_identifier := source_system_identifier;
       submission_assignment := assignment_identifier; submission_user := user_identifier;
       SubmissionStatus := status; Grade := "0"; submission_source_system := source_system;
       submission_deleted := deleted |}]> (lms_submissions db)).

(** A test arranges a store by a sequence of such steps. *)
Definition arrange (steps : list (store -> store)) : store :=
  fold_left (fun db step => step db) steps empty_store.

(** ** [harmonize_users/test_lmsusers_google_classroom.py] *)

Definition GOOGLE_SOURCE_SYSTEM : string := "Google".
Definition STUDENT_ID : string := "10000000-0000-0000-0000-000000000000".
Definition NOT_MATCHING_STUDENT_ID : string := "20000000-0000-0000-0000-000000000000".

Definition users_no_matches : store := arrange [
  insert_lms_user "sis_id_1" "e1@e.com" GOOGLE_SOURCE_SYSTEM;
  insert_lms_user "sis_id_2" "e2@e.com" GOOGLE_SOURCE_SYSTEM;
  insert_edfi_student_with_usi 1 (default_student_id 1);
  insert_edfi_student_with_usi 2 (default_student_id 2);
  insert_edfi_student_electronic_mail 1 "not_e1@e.com";
  insert_edfi_student_electronic_mail 2 "not_e2@e.com"].

Example users_no_matches_unlinked :
  EdFiStudentId <$> lms_users (run_harmonizer users_no_matches) = {[1 := None; 2 := None]}.
Proof. vm_compute. reflexivity. Qed.

Definition users_match : store := arrange [
  insert_lms_user "sis_id" "email@e.com" GOOGLE_SOURCE_SYSTEM;
  insert_edfi_student_with_usi 1 STUDENT_ID;
  insert_edfi_student_electronic_mail 1 "email@e.com"].

Example users_match_linked :
  EdFiStudentId <$> lms_users (run_harmonizer users_match) = {[1 := Some STUDENT_ID]}.
Proof. vm_compute. reflexivity. Qed.

Definition users_match_deleted : store := arrange [
  insert_lms_user_deleted "sis_id" "email@e.com" GOOGLE_SOURCE_SYSTEM;
  insert_edfi_student_with_usi 1 STUDENT_ID;
  insert_edfi_student_electronic_mail 1 "email@e.com"].

(** scenario [describe_when_lms_and_ods_tables_have_a_match_to_deleted_record]:
    a deleted LMS user whose e-mail matches a student stays unlinked. *)
Example users_match_deleted_ignored :
  EdFiStudentId <$> lms_users (run_harmonizer users_match_deleted) = {[1 := None]}.
Proof. vm_compute. reflexivity. Qed.

Definition users_multiple_emails : store := arrange [
  insert_lms_user "sis_id" "email@e.com" GOOGLE_SOURCE_SYSTEM;
  insert_edfi_student_with_usi 1 STUDENT_ID;
  insert_edfi_student_electronic_mail 1 "not_email@e.com";
  insert_edfi_student_electronic_mail 1 "email@e.com";
  insert_edfi_student_electronic_mail 1 "also_not_email@e.com"].

(** scenario [describe_when_single_student_has_multiple_emails_with_one_match]:
    a student with several e-mails is found through the one that matches. *)
Example users_multiple_emails_linked :
  EdFiStudentId <$> lms_users (run_harmonizer users_multiple_emails) = {[1 := Some STUDENT_ID]}.
Proof. vm_compute. reflexivity. Qed.

Definition users_one_match_one_not : store := arrange [
  insert_lms_user "sis_id" "email@e.com" GOOGLE_SOURCE_SYSTEM;
  insert_lms_user "not_matching_sis_id" "not_email@e.com" GOOGLE_SOURCE_SYSTEM;
  insert_edfi_student_with_usi 1 STUDENT_ID;
  insert_edfi_student_electronic_mail 1 "email@e.com";
  insert_edfi_student_with_usi 2 NOT_MATCHING_STUDENT_ID;
  insert_edfi_student_electronic_mail 2 "also_not_email@e.com"].

(** scenario [describe_when_lms_and_ods_tables_have_one_match_and_one_not_match]:
    only the user whose e-mail matches a student is linked, to that student. *)
Example users_one_match_one_not_linked :
  (fun u => (user_source_system_identifier u, EdFiStudentId u)) <$>
    lms_users (run_harmonizer users_one_match_one_not) =
  {[1 := ("sis_id", Some STUDENT_ID); 2 := ("not_matching_sis_id", None)]}.
Proof. vm_compute. reflexivity. Qed.

(** ** [harmonize_assignments/test_lmsassignments.py] *)

Definition TEST_SOURCE_SYSTEM : string := "Test_LMS".
Definition DESCRIPTOR_NAMESPACE : string :=
  "uri://ed-fi.org/edfilms/AssignmentCategoryDescriptor/" +:+ TEST_SOURCE_SYSTEM.

(** [UPDATE LMS.LMSSECTION SET EdFiSectionId = (SELECT TOP 1 ID FROM EDFI.SECTION)] *)
Definition link_sections_to_first_edfi_section (db : store) : store :=
  set_lms_sections db ((fun s => {| SISSectionIdentifier := SISSectionIdentifier s;
                                    section_source_system := section_source_system s;
                                    section_deleted := section_deleted s;
                                    EdFiSectionId := edfi_section_id <$> head (edfi_sections db) |})
                       <$> lms_sections db).

Example assignments_both_empty :
  lmsx_assignments (run_harmonizer empty_store) = ∅ /\ lmsx_submissions (run_harmonizer empty_store) = ∅.
Proof. split; reflexivity. Qed.

Definition assignments_no_section_matches : store := arrange [
  insert_lms_section "sis_id_1" TEST_SOURCE_SYSTEM;
  insert_lms_section "sis_id_2" TEST_SOURCE_SYSTEM;
  insert_edfi_section "not_matching_sis_id_1";
  insert_edfi_section "not_matching_sis_id_2"].

Example assignments_no_section_matches_empty :
  lmsx_assignments (run_harmonizer assignments_no_section_matches) = ∅.
Proof. vm_compute. reflexivity. Qed.

(** The arrangement shared by the insert, update and delete tests. *)
Definition assignments_to_insert : store := arrange [
  insert_descriptor DESCRIPTOR_NAMESPACE "test_category";
  insert_lmsx_assignmentcategory_descriptor 1;
  insert_descriptor DESCRIPTOR_NAMESPACE TEST_SOURCE_SYSTEM;
  insert_lmsx_sourcesystem_descriptor 2;
  insert_lms_section "sis_section_id" TEST_SOURCE_SYSTEM;
  insert_edfi_section "sis_section_id";
  link_sections_to_first_edfi_section;
  insert_lms_assignment "assignment_identifier" TEST_SOURCE_SYSTEM 1 "test_category"].

(** scenario [describe_when_there_are_assignments_to_insert]: an
    assignment of a section linked to an Ed-Fi section, with its category
    and source-system descriptors present, is inserted into lmsx.Assignment. *)
Example assignments_inserted :
  dom (lmsx_assignments (run_harmonizer assignments_to_insert)) = {[1]}.
Proof. vm_compute. reflexivity. Qed.

(** [UPDATE LMS.ASSIGNMENT SET TITLE = ..., LastModifiedDate = GETDATE()], and
    with [deleted] also [DeletedAt = GETDATE()]. *)
Definition update_assignments (title : string) (now : time) (deleted : bool) (db : store) : store :=
  update_lms_assignments db ((fun a =>
    {| assignment_source_system_identifier := assignment_source_system_identifier a;
       assignment_source_system := assignment_source_system a;
       assignment_section := assignment_section a; Title := title;
       AssignmentCategory := AssignmentCategory a; assignment_last_modified := now;
       assignment_deleted := deleted || assignment_deleted a |}) <$> lms_assignments db).

(** Scenario [describe_when_there_are_assignments_to_update]. *)
Example assignments_updated_title :
  x_title <$> lmsx_assignments
    (run_harmonizer (update_assignments "AN UPDATED TITLE" 1 false (run_harmonizer assignments_to_insert))) =
  {[1 := "AN UPDATED TITLE"]}.
Proof. vm_compute. reflexivity. Qed.

Example assignments_deleted :
  lmsx_assignments
    (run_harmonizer (update_assignments "AN UPDATED TITLE" 1 true (run_harmonizer assignments_to_insert))) = ∅.
Proof. vm_compute. reflexivity. Qed.

(** ** [harmonize_assignment_submissions/test_lmsassignment_submissions.py] *)

Definition SUBMISSION_STATUS_DESCRIPTOR_NAMESPACE : string :=
  "uri://ed-fi.org/edfilms/SubmissionStatusDescriptor/" +:+ TEST_SOURCE_SYSTEM.
Definition USER_TEST_EMAIL : string := "test@email.email".

(** [UPDATE LMS.LMSUSER SET EdFiStudentId = (SELECT TOP 1 ID FROM EDFI.Student)] *)
Definition link_users_to_first_edfi_student (db : store) : store :=
  set_lms_users db ((fun u => {| user_source_system_identifier := user_source_system_identifier u;
                                 user_email := user_email u; user_source_system := user_source_system u;
                                 user_deleted := user_deleted u;
                                 EdFiStudentId := student_id <$> head (edfi_students db) |})
                    <$> lms_users db).

(** The arrangement shared by the submission tests; [deleted] is the
    flag of the inserted submission. *)
Definition submissions_arranged (deleted : bool) : store := arrange [
  insert_descriptor DESCRIPTOR_NAMESPACE "test_category";
  insert_lmsx_assignmentcategory_descriptor 1;
  insert_descriptor DESCRIPTOR_NAMESPACE TEST_SOURCE_SYSTEM;
  insert_lmsx_sourcesystem_descriptor 2;
  insert_descriptor SUBMISSION_STATUS_DESCRIPTOR_NAMESPACE "test_submission_status";
  insert_lmsx_assignmentsubmissionstatus_descriptor 3;
  insert_lms_section "sis_section_id" TEST_SOURCE_SYSTEM;
  insert_edfi_section "sis_section_id";
  link_sections_to_first_edfi_section;
  insert_lms_assignment "assignment_identifier" TEST_SOURCE_SYSTEM 1 "test_category";
  insert_lms_user "test_sis_id" USER_TEST_EMAIL TEST_SOURCE_SYSTEM;
  insert_edfi_student "test_sis_id";
  link_users_to_first_edfi_student;
  insert_lms_assignment_submissions 99 "submission_test_identifier" 1 1
    "test_submission_status" TEST_SOURCE_SYSTEM deleted].

(** scenario [describe_when_there_are_assignment_submissions_to_insert]:
    a submission of a derived assignment by a linked user is inserted into
    lmsx.AssignmentSubmission. *)
Example submissions_inserted :
  dom (lmsx_submissions (run_harmonizer (submissions_arranged false))) = {[99]}.
Proof. vm_compute. reflexivity. Qed.

(** [UPDATE LMS.ASSIGNMENTSUBMISSION SET GRADE=N'85', LASTMODIFIEDDATE=GETDATE()] *)
Definition update_submission_grades (grade : string) (db : store) : store :=
  update_lms_submissions db ((fun s =>
    {| submission_source_system_identifier := submission_source_system_identifier s;
       submission_assignment := submission_assignment s; submission_user := submission_user s;
       SubmissionStatus := SubmissionStatus s; Grade := grade;
       submission_source_system := submission_source_system s;
       submission_deleted := submission_deleted s |}) <$> lms_submissions db).

Example submissions_updated_grade :
  xs_grade <$> lmsx_submissions
    (run_harmonizer (update_submission_grades "85" (run_harmonizer (submissions_arranged false)))) =
  {[99 := "85"]}.
Proof. vm_compute. reflexivity. Qed.

(** scenario [describe_when_there_are_assignment_submissions_for_deleted_assignments],
    whose arrangement soft-deletes the submission (not the assignment): a
    soft-deleted submission is not derived. *)
Example submissions_deleted_not_inserted :
  lmsx_submissions (run_harmonizer (submissions_arranged true)) = ∅.
Proof. vm_compute. reflexivity. Qed.

(** [update lms.assignment set deletedat = GETDATE()] *)
Definition delete_all_assignments (now : time) (db : store) : store :=
  update_lms_assignments db ((fun a =>
    {| assignment_source_system_identifier := assignment_source_system_identifier a;
       assignment_source_system := assignment_source_system a;
       assignment_section := assignment_section a; Title := Title a;
       AssignmentCategory := AssignmentCategory a;
       assignment_last_modified := assignment_last_modified a;
       assignment_deleted := true |}) <$> lms_assignments db).

(** Scenario [describe_when_there_are_lmsx_assignment_submissions_and_lms_assignment_is_deleted]:
    the submission derived by the first run is gone after the second. *)
Example submissions_removed_after_assignment_deleted :
  lmsx_submissions (run_harmonizer (submissions_arranged false)) <> ∅ /\
  lmsx_submissions
    (run_harmonizer (delete_all_assignments 1 (run_harmonizer (submissions_arranged false)))) = ∅.
Proof. split; [vm_compute; discriminate | vm_compute; reflexivity]. Qed.


(** ** The general theorems of [Harmonizer.v] at the scenarios *)

Definition submission_99 : LmsxSubmission :=
  {| xs_assignment := 1; xs_student_id := default_student_id 1; xs_status_descriptor := 3; xs_grade := "0" |}.

Lemma run_harmonizer_deleted_user_witness :
  lms_users (run_harmonizer users_match_deleted) !! 1 =
    Some (lms_user_row "sis_id" "email@e.com" GOOGLE_SOURCE_SYSTEM true).
Proof. apply run_harmonizer_deleted_user; vm_compute; reflexivity. Defined.

Lemma run_harmonizer_links_email_witness :
  (lms_users (run_harmonizer users_multiple_emails) !! 1) ≫= EdFiStudentId = Some STUDENT_ID.
Proof.
  apply (run_harmonizer_links_email users_multiple_emails 1
           (lms_user_row "sis_id" "email@e.com" GOOGLE_SOURCE_SYSTEM false) 1
           {| mail_usi := 1; ElectronicMailAddress := "email@e.com" |}
           (0, {| StudentUSI := 1; student_id := STUDENT_ID |})); try (vm_compute; reflexivity).
  intros i' m' Hi' Hm'. destruct i' as [|]; [| lia]. vm_compute in Hm'. injection Hm' as <-. discriminate.
Defined.

Lemma run_harmonizer_fk_witness :
  is_Some (lmsx_assignments (run_harmonizer (submissions_arranged false)) !! 1).
Proof. apply (run_harmonizer_fk (submissions_arranged false) 99 submission_99). vm_compute. reflexivity. Defined.

Lemma harmonize_assignments_fk_witness :
  is_Some (lmsx_assignments (harmonize_assignments (run_harmonizer (submissions_arranged false))) !! 1).
Proof.
  apply (harmonize_assignments_fk (run_harmonizer (submissions_arranged false)) 99 submission_99).
  vm_compute. reflexivity.
Defined.

Definition soft_delete_section (s : LMSSection) : LMSSection :=
  {| SISSectionIdentifier := SISSectionIdentifier s; section_source_system := section_source_system s;
     section_deleted := true; EdFiSectionId := EdFiSectionId s |}.

Definition soft_delete_assignment (a : Assignment) : Assignment :=
  {| assignment_source_system_identifier := assignment_source_system_identifier a;
     assignment_source_system := assignment_source_system a;
     assignment_section := assignment_section a; Title := Title a;
     AssignmentCategory := AssignmentCategory a;
     assignment_last_modified := assignment_last_modified a; assignment_deleted := true |}.

(** The harmonized assignment arrangement with its section soft-deleted. *)
Definition assignments_section_deleted : store :=
  let db := run_harmonizer assignments_to_insert in
  set_lms_sections db (soft_delete_section <$> lms_sections db).

Definition assignment_row_1 : Assignment :=
  {| assignment_source_system_identifier := "assignment_identifier";
     assignment_source_system := TEST_SOURCE_SYSTEM; assignment_section := 1;
     Title := "assignment_identifier"; AssignmentCategory := "test_category";
     assignment_last_modified := 0; assignment_deleted := false |}.

Lemma run_harmonizer_section_cascade_witness :
  lmsx_assignments (run_harmonizer assignments_section_deleted) !! 1 = None.
Proof.
  apply (run_harmonizer_section_cascade assignments_section_deleted 1
           {| SISSectionIdentifier := "sis_section_id"; section_source_system := TEST_SOURCE_SYSTEM;
              section_deleted := true; EdFiSectionId := Some "section-guid-1" |} 1 assignment_row_1);
    vm_compute; reflexivity.
Defined.

(** Two assignments of one section with a submission each; the first
    assignment is soft-deleted. *)
Definition two_assignments_store : store :=
  let db := arrange [
    insert_descriptor DESCRIPTOR_NAMESPACE "test_category";
    insert_lmsx_assignmentcategory_descriptor 1;
    insert_descriptor DESCRIPTOR_NAMESPACE TEST_SOURCE_SYSTEM;
    insert_lmsx_sourcesystem_descriptor 2;
    insert_descriptor SUBMISSION_STATUS_DESCRIPTOR_NAMESPACE "test_submission_status";
    insert_lmsx_assignmentsubmissionstatus_descriptor 3;
    insert_lms_section "sis_section_id" TEST_SOURCE_SYSTEM;
    insert_edfi_section "sis_section_id";
    link_sections_to_first_edfi_section;
    insert_lms_assignment "assignment_identifier" TEST_SOURCE_SYSTEM 1 "test_category";
    insert_lms_assignment "assignment_2" TEST_SOURCE_SYSTEM 1 "test_category";
    insert_lms_user "test_sis_id" USER_TEST_EMAIL TEST_SOURCE_SYSTEM;
    insert_edfi_student "test_sis_id";
    link_users_to_first_edfi_student;
    insert_lms_assignment_submissions 98 "s1" 1 1 "test_submission_status" TEST_SOURCE_SYSTEM false;
    insert_lms_assignment_submissions 99 "s2" 2 1 "test_submission_status" TEST_SOURCE_SYSTEM false] in
  update_lms_assignments db (alter soft_delete_assignment 1 (lms_assignments db)).

Lemma run_harmonizer_deleted_assignment_witness :
  xs_assignment {| xs_assignment := 2; xs_student_id := default_student_id 1;
                   xs_status_descriptor := 3; xs_grade := "0" |} <> 1.
Proof.
  apply (run_harmonizer_deleted_assignment two_assignments_store 1 (soft_delete_assignment assignment_row_1) 99);
    vm_compute; reflexivity.
Defined.

Lemma run_harmonizer_preserves_sources_witness :
  lms_users (run_harmonizer (submissions_arranged false)) !! 1 = lms_users (submissions_arranged false) !! 1.
Proof.
  destruct (run_harmonizer_preserves_sources (submissions_arranged false)) as (_ & _ & Hu & _).
  apply (Hu 1 {| user_source_system_identifier := "test_sis_id"; user_email := USER_TEST_EMAIL;
                 user_source_system := TEST_SOURCE_SYSTEM; user_deleted := false;
                 EdFiStudentId := Some (default_student_id 1) |}); vm_compute; [reflexivity | eauto].
Defined.

(** ** The tests' updates, for every store *)

Lemma map_imap_none {A B} (f : nat -> A -> option B) (m : gmap nat A) :
  (forall k a, m !! k = Some a -> f k a = None) -> map_imap f m = ∅.
Proof.
  intros Hf. apply map_eq. intros k. rewrite map_lookup_imap, lookup_empty.
  destruct (m !! k) eqn:E; simpl; [by apply Hf | done].
Qed.

(** With every assignment soft-deleted, both derived tables are empty. *)
Lemma run_harmonizer_all_assignments_deleted db :
  (forall k a, lms_assignments db !! k = Some a -> assignment_deleted a = true) ->
  lmsx_assignments (run_harmonizer db) = ∅ /\ lmsx_submissions (run_harmonizer db) = ∅.
Proof.
  intros Hdel. rewrite run_harmonizer_eq. simpl.
  assert (HA : harmonized_assignments db = ∅).
  { apply map_imap_none. intros k a Ha. unfold assignment_projection. by rewrite (Hdel k a Ha). }
  split; [exact HA |]. apply map_eq. intros j. rewrite lookup_empty.
  destruct (harmonized_submissions db !! j) as [x|] eqn:E; [| done].
  apply harmonized_submissions_lookup_Some in E as (s & _ & _ & _ & Hp).
  rewrite HA, lookup_empty in Hp. by destruct Hp.
Qed.

(** C16: soft-deleting every assignment, as the delete tests do
    ([update lms.assignment set deletedat = GETDATE()], or the title
    update with [DeletedAt]), empties [lmsx.Assignment] and
    [lmsx.AssignmentSubmission] at the next run, whatever they held. *)
Theorem deleted_assignments_clear_lmsx db now title :
  lmsx_assignments (run_harmonizer (delete_all_assignments now db)) = ∅ /\
  lmsx_submissions (run_harmonizer (delete_all_assignments now db)) = ∅ /\
  lmsx_assignments (run_harmonizer (update_assignments title now true db)) = ∅ /\
  lmsx_submissions (run_harmonizer (update_assignments title now true db)) = ∅.
Proof.
  destruct (run_harmonizer_all_assignments_deleted (delete_all_assignments now db)) as [H1 H2].
  { intros k a. simpl. rewrite lookup_fmap. destruct (lms_assignments db !! k); simpl; [| done].
    by intros [= <-]. }
  destruct (run_harmonizer_all_assignments_deleted (update_assignments title now true db)) as [H3 H4].
  { intros k a. simpl. rewrite lookup_fmap. destruct (lms_assignments db !! k); simpl; [| done].
    by intros [= <-]. }
  auto.
Qed.

Definition retitle (title : string) (x : LmsxAssignment) : LmsxAssignment :=
  {| x_title := title; x_section_id := x_section_id x;
     x_category_descriptor := x_category_descriptor x;
     x_source_system_descriptor := x_source_system_descriptor x |}.

Lemma assignment_projection_retitle db k a title now :
  assignment_projection (harmonize_links (update_assignments title now false db)) k
    (Build_Assignment (assignment_source_system_identifier a) (assignment_source_system a)
       (assignment_section a) title (AssignmentCategory a) now (false || assignment_deleted a)) =
  retitle title <$> assignment_projection (harmonize_links db) k a.
Proof.
  unfold assignment_projection. simpl. destruct (assignment_deleted a); [done |].
  unfold descriptor_id, link_section, match_section. simpl. rewrite !lookup_fmap.
  destruct (lms_sections db !! assignment_section a) as [s|]; simpl; [| done].
  repeat case_match; simpl; try done; destruct_binds; done.
Qed.

(** C17: the title update of the update test
    ([UPDATE LMS.ASSIGNMENT SET TITLE = ..., LastModifiedDate = GETDATE()])
    reaches every derived assignment at the next run and changes no
    assignment's eligibility. *)
Theorem updated_titles_reach_lmsx db title now :
  lmsx_assignments (run_harmonizer (update_assignments title now false db)) =
    retitle title <$> lmsx_assignments (run_harmonizer db).
Proof.
  rewrite !run_harmonizer_eq. simpl. apply map_eq. intros k.
  rewrite lookup_fmap, !harmonized_assignments_lookup. simpl. rewrite lookup_fmap.
  destruct (lms_assignments db !! k) as [a|]; simpl; [| done].
  apply assignment_projection_retitle.
Qed.

Definition regrade (grade : string) (x : LmsxSubmission) : LmsxSubmission :=
  {| xs_assignment := xs_assignment x; xs_student_id := xs_student_id x;
     xs_status_descriptor := xs_status_descriptor x; xs_grade := grade |}.

(** C18: the grade update of the update test
    ([UPDATE LMS.ASSIGNMENTSUBMISSION SET GRADE=...]) reaches every derived
    submission at the next run and changes no submission's eligibility. *)
Theorem updated_grades_reach_lmsx db grade :
  lmsx_submissions (run_harmonizer (update_submission_grades grade db)) =
    regrade grade <$> lmsx_submissions (run_harmonizer db).
Proof.
  rewrite !run_harmonizer_eq. simpl. apply map_eq. intros k.
  unfold harmonized_submissions. rewrite lookup_fmap, !map_lookup_imap. simpl. rewrite lookup_fmap.
  destruct (lms_submissions db !! k) as [s|]; simpl; [| done].
  unfold submission_projection. simpl. destruct (submission_deleted s); [done |]. simpl.
  change (harmonized_assignments (update_submission_grades grade db)) with (harmonized_assignments db).
  destruct (harmonized_assignments db !! submission_assignment s); simpl; [| done].
  unfold descriptor_id, link_user, match_student_email. simpl. rewrite !lookup_fmap.
  destruct (lms_users db !! submission_user s) as [u|]; simpl; [| done].
  repeat case_match; simpl; try done; destruct_binds; done.
Qed.
